(** * pdf-lib-annotate: the annotation geometry and interaction engine

    A shallow embedding of the script part of the page component
    (the three-canvas variant, with the export to a PDF form) and the
    properties of its drawing, selection, nudge and export operations. *)

From Stdlib Require Import ZArith QArith Qcanon List String Bool Lia.
From Stdlib Require Import Qround Qabs Permutation Sorted DecimalString.
From Stdlib Require DecimalPos DecimalZ.
From Stdlib Require PrimFloat.
Import ListNotations.

Local Open Scope Z_scope.

(** ** JS numbers

    A JS [number] is modelled as an exact rational, extended with the three
    special values a division can produce.  The arithmetic of the special
    values is the IEEE one; rounding and the sign of zero are left out. *)

Module Num.

Inductive number : Type :=
| Fin (q : Qc)
| PInf
| NInf
| NaN.

Definition of_Z (z : Z) : number := Fin (Q2Qc (inject_Z z)).

Definition is_zero (q : Qc) : bool :=
  if Qc_eq_dec q (Q2Qc 0) then true else false.

Definition is_neg (q : Qc) : bool :=
  match (q ?= Q2Qc 0)%Qc with Lt => true | _ => false end.

(** -a *)
Definition neg (a : number) : number :=
  match a with
  | Fin q => Fin (- q)%Qc
  | PInf => NInf
  | NInf => PInf
  | NaN => NaN
  end.

(** a + b *)
Definition add (a b : number) : number :=
  match a, b with
  | NaN, _ | _, NaN => NaN
  | Fin p, Fin q => Fin (p + q)%Qc
  | PInf, NInf | NInf, PInf => NaN
  | PInf, _ | _, PInf => PInf
  | NInf, _ | _, NInf => NInf
  end.

(** a - b *)
Definition sub (a b : number) : number := add a (neg b).

(** The infinity of the sign of [q], for a non-zero [q]. *)
Definition inf_of_sign (q : Qc) : number :=
  if is_neg q then NInf else PInf.

(** a * b *)
Definition mul (a b : number) : number :=
  match a, b with
  | NaN, _ | _, NaN => NaN
  | Fin p, Fin q => Fin (p * q)%Qc
  | Fin p, PInf | PInf, Fin p =>
      if is_zero p then NaN else inf_of_sign p
  | Fin p, NInf | NInf, Fin p =>
      if is_zero p then NaN else neg (inf_of_sign p)
  | PInf, PInf | NInf, NInf => PInf
  | PInf, NInf | NInf, PInf => NInf
  end.

(** a / b: a finite value over zero is an infinity, zero over zero and
    infinity over infinity are NaN. *)
Definition div (a b : number) : number :=
  match a, b with
  | NaN, _ | _, NaN => NaN
  | Fin p, Fin q =>
      if is_zero q then (if is_zero p then NaN else inf_of_sign p)
      else Fin (p / q)%Qc
  | Fin _, (PInf | NInf) => Fin (Q2Qc 0)
  | PInf, Fin q => inf_of_sign q
  | NInf, Fin q => neg (inf_of_sign q)
  | (PInf | NInf), (PInf | NInf) => NaN
  end.

(** a !== 0 *)
Definition nonzero (a : number) : bool :=
  match a with
  | Fin q => negb (is_zero q)
  | _ => true
  end.

Definition is_finite (a : number) : bool :=
  match a with Fin _ => true | _ => false end.


Definition eq_dec (a b : number) : {a = b} + {a <> b}.
Proof.
  decide equality; apply Qc_eq_dec.
Defined.

End Num.

Import Num.

Declare Scope num_scope.
Delimit Scope num_scope with num.
Bind Scope num_scope with number.
Infix "+" := Num.add : num_scope.
Infix "-" := Num.sub : num_scope.
Infix "*" := Num.mul : num_scope.
Infix "/" := Num.div : num_scope.
Abbreviation num := Num.of_Z.


Local Open Scope string_scope.
Local Open Scope list_scope.

(** ** Data model *)

(** [AnnotationBox] of types/canvas, with the fields the page component
    writes.  [id] is a [Date.now()] value and [page] a page number, both
    integral numbers; the geometry is in canvas pixels. *)
Record AnnotationBox : Type := mkBox {
  id : Z;
  x : number;
  y : number;
  page : Z;
  width : number;
  height : number;
  name : string
}.

Definition set_size (box : AnnotationBox) (w h : number) : AnnotationBox :=
  mkBox (id box) (x box) (y box) (page box) w h (name box).

Definition set_x (box : AnnotationBox) (v : number) : AnnotationBox :=
  mkBox (id box) v (y box) (page box) (width box) (height box) (name box).

Definition set_y (box : AnnotationBox) (v : number) : AnnotationBox :=
  mkBox (id box) (x box) v (page box) (width box) (height box) (name box).

Definition set_name (box : AnnotationBox) (n : string) : AnnotationBox :=
  mkBox (id box) (x box) (y box) (page box) (width box) (height box) n.

Record Coordinates : Type := mkCoordinates {
  cx : number;
  cy : number
}.

(** What a handler reads of a [MouseEvent], with the bounding rectangle of
    the canvas at the time of the event. *)
Record MouseEvent : Type := mkMouse {
  clientX : number;
  clientY : number;
  rect_left : number;
  rect_top : number
}.

Record KeyboardEvent : Type := mkKey {
  key : string;
  shiftKey : bool
}.

(** The options object handed to [textField.addToPage]. *)
Record FieldOptions : Type := mkOptions {
  opt_x : number;
  opt_y : number;
  opt_width : number;
  opt_height : number;
  borderWidth : number
}.

(** The steps of the export that can throw or reject. *)
Inductive ExportStep : Type :=
| StepGetData
| StepLoad
| StepGetPage
| StepCreateTextField
| StepAddToPage
| StepSave.

(** The calls made on the form of the loaded document. *)
Inductive Call : Type :=
| CreateTextField (fieldName : string)
| AddToPage (pageIndex : Z) (options : FieldOptions).

(** The two PDF libraries, as far as the page component uses them.  A
    result of [None] stands for a thrown exception or a rejected promise.
    The document of pdf-lib is a mutable object: it is threaded through. *)
Class Collaborators : Type := {
  PDFDocumentProxy : Type;
  Bytes : Type;
  PDFDoc : Type;
  PDFPage : Type;
  PDFTextField : Type;
  getData : PDFDocumentProxy -> option Bytes;
  PDFDocument_load : Bytes -> option PDFDoc;
  getPage : PDFDoc -> Z -> option PDFPage;
  getSize : PDFPage -> number * number;
  createTextField : PDFDoc -> string -> option (PDFDoc * PDFTextField);
  addToPage :
    PDFDoc -> PDFTextField -> PDFPage -> FieldOptions -> option PDFDoc;
  save : PDFDoc -> option Bytes
}.

(** ** The state of the page component

    The stores and variables of the script, the size of the drawing canvas,
    and what the component has shown or handed to the browser: alerts,
    console errors and downloads.  A context is [true] when it is not null.
    The pixels of the canvases are not part of the model. *)
Record State `{Collaborators} : Type := mkState {
  pdfDocument : option PDFDocumentProxy;
  currentPage : Z;
  coordinates : Coordinates;
  annotations : list AnnotationBox;
  isDrawing : bool;
  currentBox : option AnnotationBox;
  selectedAnnotationId : option Z;
  pdfContext : bool;
  annotationContext : bool;
  drawingContext : bool;
  canvas_width : number;
  canvas_height : number;
  alerts : list string;
  console_errors : list string;
  downloads : list (string * Bytes)
}.

Arguments mkState {_}.

Section Handlers.

Context `{C : Collaborators}.

Definition set_drawing (s : State) (d : bool) (b : option AnnotationBox)
  : State :=
  mkState (pdfDocument s) (currentPage s) (coordinates s) (annotations s)
    d b (selectedAnnotationId s)
    (pdfContext s) (annotationContext s) (drawingContext s)
    (canvas_width s) (canvas_height s)
    (alerts s) (console_errors s) (downloads s).

Definition set_annotations (s : State) (l : list AnnotationBox) : State :=
  mkState (pdfDocument s) (currentPage s) (coordinates s) l
    (isDrawing s) (currentBox s) (selectedAnnotationId s)
    (pdfContext s) (annotationContext s) (drawingContext s)
    (canvas_width s) (canvas_height s)
    (alerts s) (console_errors s) (downloads s).

Definition set_selected (s : State) (i : option Z) : State :=
  mkState (pdfDocument s) (currentPage s) (coordinates s) (annotations s)
    (isDrawing s) (currentBox s) i
    (pdfContext s) (annotationContext s) (drawingContext s)
    (canvas_width s) (canvas_height s)
    (alerts s) (console_errors s) (downloads s).

Definition set_coordinates (s : State) (c : Coordinates) : State :=
  mkState (pdfDocument s) (currentPage s) c (annotations s)
    (isDrawing s) (currentBox s) (selectedAnnotationId s)
    (pdfContext s) (annotationContext s) (drawingContext s)
    (canvas_width s) (canvas_height s)
    (alerts s) (console_errors s) (downloads s).

Definition add_download (s : State) (file : string) (b : Bytes) : State :=
  mkState (pdfDocument s) (currentPage s) (coordinates s) (annotations s)
    (isDrawing s) (currentBox s) (selectedAnnotationId s)
    (pdfContext s) (annotationContext s) (drawingContext s)
    (canvas_width s) (canvas_height s)
    (alerts s) (console_errors s) (downloads s ++ [(file, b)]).

Definition report_error (s : State) (log msg : string) : State :=
  mkState (pdfDocument s) (currentPage s) (coordinates s) (annotations s)
    (isDrawing s) (currentBox s) (selectedAnnotationId s)
    (pdfContext s) (annotationContext s) (drawingContext s)
    (canvas_width s) (canvas_height s)
    (alerts s ++ [msg]) (console_errors s ++ [log]) (downloads s).

(** ** Drawing a box *)

(** mousedown on the drawing canvas; [now] is the value of [Date.now()]. *)
Definition startDrawingBox (now : Z) (event : MouseEvent) (s : State)
  : State :=
  if negb (drawingContext s) || negb (pdfContext s) then s
  else
    let x0 := (clientX event - rect_left event)%num in
    let y0 := (clientY event - rect_top event)%num in
    set_drawing s true
      (Some (mkBox now x0 y0 (currentPage s) (num 0) (num 0) "")).

(** mousemove on the drawing canvas. *)
Definition updateDrawingBox (event : MouseEvent) (s : State) : State :=
  if negb (isDrawing s) || negb (drawingContext s) || negb (pdfContext s)
  then s
  else
    let currentX := (clientX event - rect_left event)%num in
    let currentY := (clientY event - rect_top event)%num in
    match currentBox s with
    | Some box =>
        set_drawing s (isDrawing s)
          (Some (set_size box (currentX - x box) (currentY - y box)))
    | None => s
    end.

(** mouseup and mouseout on the drawing canvas, on a canvas that
    [drawImage] accepts; for the canvas of size zero see
    [endDrawingBox_throwing] below. *)
Definition endDrawingBox (s : State) : State :=
  match isDrawing s, currentBox s with
  | true, Some box =>
      if negb (pdfContext s) || negb (drawingContext s)
         || negb (annotationContext s)
      then s
      else
        let s1 :=
          if Num.nonzero (width box) && Num.nonzero (height box)
          then set_annotations s (annotations s ++ [box])
          else s in
        set_drawing s1 false None
  | _, _ => s
  end.

(** ** Selection, nudge, rename, removal *)

(** [!$selectedAnnotationId]: null is falsy, and so is the number 0. *)
Definition truthy_id (i : option Z) : bool :=
  match i with
  | Some v => negb (v =? 0)%Z
  | None => false
  end.

(** [box.id === $selectedAnnotationId] *)
Definition is_selected (sel : option Z) (box : AnnotationBox) : bool :=
  match sel with
  | Some v => (id box =? v)%Z
  | None => false
  end.

(** The body of the [map] callback: the switch on [event.key]. *)
Definition nudge (event : KeyboardEvent) (moveAmount : number)
  (box : AnnotationBox) : AnnotationBox :=
  if String.eqb (key event) "ArrowLeft" then
    set_x box (x box - moveAmount)
  else if String.eqb (key event) "ArrowRight" then
    set_x box (x box + moveAmount)
  else if String.eqb (key event) "ArrowUp" then
    set_y box (y box - moveAmount)
  else if String.eqb (key event) "ArrowDown" then
    set_y box (y box + moveAmount)
  else box.

(** keydown on the window. *)
Definition handleKeyboardBoxControl (event : KeyboardEvent) (s : State)
  : State :=
  if negb (truthy_id (selectedAnnotationId s))
     || negb (pdfContext s) || negb (drawingContext s)
  then s
  else
    match find (is_selected (selectedAnnotationId s)) (annotations s) with
    | None => s
    | Some _ =>
        let moveAmount := if shiftKey event then num 10 else num 1 in
        set_annotations s
          (map (fun box =>
                  if is_selected (selectedAnnotationId s) box
                  then nudge event moveAmount box
                  else box)
               (annotations s))
    end.

(** [onSelect] of an item of the list. *)
Definition selectAnnotation (i : Z) (s : State) : State :=
  set_selected s (Some i).

(** [onEdit] of an item of the list. *)
Definition editAnnotation (i : Z) (n : string) (s : State) : State :=
  set_annotations s
    (map (fun box => if (id box =? i)%Z then set_name box n else box)
         (annotations s)).

(** [removeAnnotation]; the body is the same in both variants of the page
    as far as the stores go. *)
Definition removeAnnotation (i : Z) (s : State) : State :=
  set_selected
    (set_annotations s
       (filter (fun box => negb (id box =? i)%Z) (annotations s)))
    None.

(** ** The coordinate read-out *)

(** [parseFloat(a.toFixed(2))]: the nearest multiple of 1/100, a tie going
    away from zero; the special values print and parse as themselves. *)
Definition toFixed2 (a : number) : number :=
  match a with
  | Fin q =>
      let n := Qfloor (Qabs q * inject_Z 100 + (1 # 2))%Q in
      Fin (Q2Qc ((if Num.is_neg q then - n else n) # 100))
  | _ => a
  end.

(** [(canvasX / drawingCanvas.width) * pdfWidth] *)
Definition toPdfX (canvasX canvasWidth pdfWidth : number) : number :=
  (canvasX / canvasWidth * pdfWidth)%num.

(** [pdfHeight - (canvasY / drawingCanvas.height) * pdfHeight] *)
Definition toPdfY (canvasY canvasHeight pdfHeight : number) : number :=
  (pdfHeight - canvasY / canvasHeight * pdfHeight)%num.

(** The mousemove listener that [renderPage] adds for the read-out;
    [pdfWidth] and [pdfHeight] are the size of the rendered page at scale
    1, and the rectangle of the event is the one of the drawing canvas. *)
Definition trackCoordinates (pdfWidth pdfHeight : number)
  (event : MouseEvent) (s : State) : State :=
  let canvasX := (clientX event - rect_left event)%num in
  let canvasY := (clientY event - rect_top event)%num in
  let pdfX := toPdfX canvasX (canvas_width s) pdfWidth in
  let pdfY := toPdfY canvasY (canvas_height s) pdfHeight in
  set_coordinates s (mkCoordinates (toFixed2 pdfX) (toFixed2 pdfY)).

(** The mouseout listener of the read-out. *)
Definition resetCoordinates (s : State) : State :=
  set_coordinates s (mkCoordinates (num 0) (num 0)).

(** ** Export *)

(** [pageAnnotationMap]: the properties of the object in the order of their
    creation, the key of a property being the page number. *)
Definition PageMap : Type := list (Z * list AnnotationBox).

(** One turn of the grouping loop: push on the array of the page of [box],
    or create it. *)
Fixpoint group_add (m : PageMap) (box : AnnotationBox) : PageMap :=
  match m with
  | [] => [(page box, [box])]
  | (k, boxes) :: m' =>
      if (k =? page box)%Z then (k, boxes ++ [box]) :: m'
      else (k, boxes) :: group_add m' box
  end.

Definition groupByPage (l : list AnnotationBox) : PageMap :=
  fold_left group_add l [].

(** A key that is an array index comes first in the order of the
    properties of an object, in ascending order. *)
Definition is_array_index (k : Z) : bool :=
  (0 <=? k)%Z && (k <? 2 ^ 32 - 1)%Z.

Fixpoint insert_entry (e : Z * list AnnotationBox) (l : PageMap) : PageMap :=
  match l with
  | [] => [e]
  | e' :: l' =>
      if (fst e <=? fst e')%Z then e :: l else e' :: insert_entry e l'
  end.

Definition sort_entries (l : PageMap) : PageMap :=
  fold_right insert_entry [] l.

(** [Object.entries]: the array indices in ascending order, then the other
    keys in the order of their creation. *)
Definition Object_entries (m : PageMap) : PageMap :=
  sort_entries (filter (fun e => is_array_index (fst e)) m)
  ++ filter (fun e => negb (is_array_index (fst e))) m.

(** The text of an integral number in a template literal. *)
Definition toString (z : Z) : string :=
  NilZero.string_of_int (Z.to_int z).

(** [box.name || `Field_${box.id}`] *)
Definition fieldName (box : AnnotationBox) : string :=
  if String.eqb (name box) "" then ("Field_" ++ toString (id box))%string
  else name box.

(** The options of the placement of [box] on a page of size
    [pdfWidth] x [pdfHeight], the drawing canvas being
    [canvasWidth] x [canvasHeight]. *)
Definition fieldOptions (box : AnnotationBox)
  (canvasWidth canvasHeight pdfWidth pdfHeight : number) : FieldOptions :=
  let canvasX := x box in
  let canvasY := y box in
  let pdfX := toPdfX canvasX canvasWidth pdfWidth in
  let pdfY := toPdfY canvasY canvasHeight pdfHeight in
  let pdfBoxWidth := (width box / canvasWidth * pdfWidth)%num in
  let pdfBoxHeight := (height box / canvasHeight * pdfHeight)%num in
  mkOptions pdfX (pdfY - pdfBoxHeight) pdfBoxWidth pdfBoxHeight (num 0).

(** The body of the [try] block runs in a monad that keeps the calls made
    so far and stops at the first step that throws. *)
Definition Export (A : Type) : Type :=
  list Call -> list Call * (ExportStep + A).

Definition ret {A : Type} (a : A) : Export A :=
  fun log => (log, inr a).

Definition bind {A B : Type} (m : Export A) (f : A -> Export B)
  : Export B :=
  fun log =>
    match m log with
    | (log', inr a) => f a log'
    | (log', inl e) => (log', inl e)
    end.

Definition attempt {A : Type} (step : ExportStep) (r : option A)
  : Export A :=
  fun log =>
    match r with
    | Some a => (log, inr a)
    | None => (log, inl step)
    end.

Definition record (c : Call) : Export unit :=
  fun log => (log ++ [c], inr tt).

Notation "x <- m ;; k" := (bind m (fun x => k))
  (at level 61, m at next level, right associativity).
Notation "m ;;; k" := (bind m (fun _ => k))
  (at level 61, right associativity).

(** [for (const a of l) body], the document being threaded through. *)
Fixpoint for_of {A S : Type} (l : list A) (body : S -> A -> Export S)
  (st : S) : Export S :=
  match l with
  | [] => ret st
  | a :: l' => st' <- body st a ;; for_of l' body st'
  end.

(** The body of the inner loop. *)
Definition placeField (pageIndex : Z) (pdfPage : PDFPage)
  (canvasWidth canvasHeight pdfWidth pdfHeight : number)
  (pdfDoc : PDFDoc) (box : AnnotationBox) : Export PDFDoc :=
  record (CreateTextField (fieldName box)) ;;;
  created <- attempt StepCreateTextField
               (createTextField pdfDoc (fieldName box)) ;;
  let options :=
    fieldOptions box canvasWidth canvasHeight pdfWidth pdfHeight in
  record (AddToPage pageIndex options) ;;;
  attempt StepAddToPage (addToPage (fst created) (snd created) pdfPage options).

(** The body of the outer loop. *)
Definition placePage (canvasWidth canvasHeight : number)
  (pdfDoc : PDFDoc) (entry : Z * list AnnotationBox) : Export PDFDoc :=
  let pageIndex := (fst entry - 1)%Z in
  pdfPage <- attempt StepGetPage (getPage pdfDoc pageIndex) ;;
  let pdfWidth := fst (getSize pdfPage) in
  let pdfHeight := snd (getSize pdfPage) in
  for_of (snd entry)
    (placeField pageIndex pdfPage canvasWidth canvasHeight
       pdfWidth pdfHeight)
    pdfDoc.

(** The [try] block of [addFieldsAndDownload], up to the saved bytes; an
    awaited promise is a step like the others. *)
Definition exportBytes (pdf : PDFDocumentProxy) (s : State)
  : Export Bytes :=
  pdfBytes <- attempt StepGetData (getData pdf) ;;
  pdfDoc <- attempt StepLoad (PDFDocument_load pdfBytes) ;;
  let pageAnnotationMap := groupByPage (annotations s) in
  pdfDoc' <- for_of (Object_entries pageAnnotationMap)
               (placePage (canvas_width s) (canvas_height s)) pdfDoc ;;
  attempt StepSave (save pdfDoc').

(** The click on Download. *)
Definition addFieldsAndDownload (s : State) : State :=
  match pdfDocument s with
  | None => s
  | Some pdf =>
      match snd (exportBytes pdf s []) with
      | inr modifiedPdfBytes =>
          add_download s "annotated.pdf" modifiedPdfBytes
      | inl _ =>
          report_error s "Error creating PDF:"
            "Error creating PDF. Check console for details."
      end
  end.

(** The calls that the click on Download makes on the form. *)
Definition exportCalls (s : State) : list Call :=
  match pdfDocument s with
  | None => []
  | Some pdf => fst (exportBytes pdf s [])
  end.

End Handlers.

Arguments State : clear implicits.

(** ** Drag sequences *)

(** The pointer in canvas pixels, as the handlers compute it. *)
Definition pointer (event : MouseEvent) : number * number :=
  ((clientX event - rect_left event)%num,
   (clientY event - rect_top event)%num).

(** A whole drag: mousedown, the mousemoves in order, then mouseup or
    mouseout. *)
Definition drag `{C : Collaborators} (now : Z) (down : MouseEvent)
  (moves : list MouseEvent) (s : State C) : State C :=
  endDrawingBox
    (fold_left (fun st move => updateDrawingBox move st) moves
       (startDrawingBox now down s)).

(** The extents of the box when the drag ends: none without a move, else
    from the point of the mousedown to the point of the last move. *)
Definition drag_extent (down : MouseEvent) (moves : list MouseEvent)
  : number * number :=
  match rev moves with
  | [] => (num 0, num 0)
  | final :: _ =>
      ((fst (pointer final) - fst (pointer down))%num,
       (snd (pointer final) - snd (pointer down))%num)
  end.

(** The page is rendered: the three contexts are there. *)
Definition rendered `{C : Collaborators} (s : State C) : Prop :=
  pdfContext s = true /\ drawingContext s = true
  /\ annotationContext s = true.

(** The field names among the calls of an export, in order. *)
Definition created_names (calls : list Call) : list string :=
  flat_map (fun c => match c with
                     | CreateTextField n => [n]
                     | AddToPage _ _ => []
                     end) calls.

(** ** A small model of the two libraries

    A document is its page sizes and the fields placed so far; creating a
    field under a name already in use throws, and so does asking for a page
    that is out of range. *)
Module Sample.

Record Doc : Type := mkDoc {
  pages : list (number * number);
  names : list string;
  widgets : list (string * Z * FieldOptions)
}.

Record Page : Type := mkPage {
  index : Z;
  size : number * number
}.

Definition page_at (d : Doc) (i : Z) : option Page :=
  if (i <? 0)%Z then None
  else option_map (mkPage i) (nth_error (pages d) (Z.to_nat i)).

Definition create_field (d : Doc) (n : string)
  : option (Doc * string) :=
  if existsb (String.eqb n) (names d) then None
  else Some (mkDoc (pages d) (names d ++ [n]) (widgets d), n).

Definition place_field (d : Doc) (f : string) (p : Page) (o : FieldOptions)
  : option Doc :=
  Some (mkDoc (pages d) (names d) (widgets d ++ [(f, index p, o)])).

Definition pdf : Collaborators := {|
  PDFDocumentProxy := list (number * number);
  Bytes := Doc;
  PDFDoc := Doc;
  PDFPage := Page;
  PDFTextField := string;
  getData := fun sizes => Some (mkDoc sizes [] []);
  PDFDocument_load := fun b => Some b;
  getPage := page_at;
  getSize := size;
  createTextField := create_field;
  addToPage := place_field;
  save := fun d => Some d
|}.

(** A document of three pages of 600 x 800 points, the first rendered at
    scale 1.5, with [boxes] in the store. *)
Definition editor (boxes : list AnnotationBox) (sel : option Z)
  : State pdf :=
  @mkState pdf
    (Some [(num 600, num 800); (num 600, num 800); (num 600, num 800)])
    1 (mkCoordinates (num 0) (num 0)) boxes false None sel
    true true true (num 900) (num 1200) [] [] [].

(** The same editor before any document is loaded. *)
Definition empty_editor : State pdf :=
  @mkState pdf None 1 (mkCoordinates (num 0) (num 0)) [] false None
    None false false false (num 300) (num 150) [] [] [].

(** A document whose second page is half a point wide and high: at scale
    1.5 its canvas is 0 x 0.  The second page is the one on screen. *)
Definition half : number := Fin (Q2Qc (1 # 2)).

Definition flat_editor (boxes : list AnnotationBox) : State pdf :=
  @mkState pdf
    (Some [(num 600, num 800); (half, half)])
    2 (mkCoordinates (num 0) (num 0)) boxes false None None
    true true true (num 0) (num 0) [] [] [].

Definition box1 : AnnotationBox :=
  mkBox 1 (num 10) (num 10) 1 (num 20) (num 20) "".

Definition box2 : AnnotationBox :=
  mkBox 2 (num 50) (num 50) 1 (num 20) (num 20) "".

Definition box3 : AnnotationBox :=
  mkBox 3 (num 30) (num 40) 3 (num 20) (num 20) "sig".

Definition unnamed : AnnotationBox :=
  mkBox 12345 (num 10) (num 10) 1 (num 20) (num 20) "".

Definition named : AnnotationBox :=
  mkBox 7 (num 50) (num 50) 2 (num 20) (num 20) "Name".


Definition at_point (px py : Z) : MouseEvent :=
  mkMouse (num px) (num py) (num 0) (num 0).

End Sample.

(** ** Loading and rendering

    pdf.js and the canvas elements, as far as the page component uses
    them.  A result of [None], or of [false] for [render], stands for a
    rejected promise; [canvas_dimension v] is what the width or height of a
    canvas reads after [v] was assigned to it; a canvas gives a 2d context
    or it does not. *)
Class Renderer `{C : Collaborators} : Type := {
  FileData : Type;
  PDFPageProxy : Type;
  getDocument : FileData -> option PDFDocumentProxy;
  proxy_numPages : PDFDocumentProxy -> Z;
  proxy_getPage : PDFDocumentProxy -> Z -> option PDFPageProxy;
  getViewport : PDFPageProxy -> number -> number * number;
  render : PDFPageProxy -> bool;
  canvas_dimension : number -> number;
  pdfCanvas_2d : bool;
  annotationCanvas_2d : bool;
  drawingCanvas_2d : bool
}.

(** What [onFileChange] reads of the chosen file. *)
Record File `{R : Renderer} : Type := mkFile {
  file_type : string;
  file_data : FileData
}.

(** The page component: its stores and variables, the store of the number
    of pages, and the listeners that [renderPage] has added to the drawing
    canvas.  The three drawing handlers are added once, however often they
    are added again; each render adds one more listener for the read-out,
    with the size of the page it rendered. *)
Record App `{R : Renderer} : Type := mkApp {
  stores : State C;
  numPages : Z;
  drawing_listeners : bool;
  readout_listeners : list (number * number)
}.

Arguments mkApp {_ _}.

(** [annotation.name || `Box ${annotation.id}`], the text of a list item. *)
Definition label (box : AnnotationBox) : string :=
  if String.eqb (name box) "" then ("Box " ++ toString (id box))%string
  else name box.

Section Loading.

Context `{R : Renderer}.

Definition with_stores (a : App) (s : State C) : App :=
  mkApp s (numPages a) (drawing_listeners a) (readout_listeners a).

Definition set_canvas (s : State C) (w h : number) : State C :=
  mkState (pdfDocument s) (currentPage s) (coordinates s) (annotations s)
    (isDrawing s) (currentBox s) (selectedAnnotationId s)
    (pdfContext s) (annotationContext s) (drawingContext s)
    w h (alerts s) (console_errors s) (downloads s).

Definition set_contexts (s : State C) (p a d : bool) : State C :=
  mkState (pdfDocument s) (currentPage s) (coordinates s) (annotations s)
    (isDrawing s) (currentBox s) (selectedAnnotationId s)
    p a d
    (canvas_width s) (canvas_height s)
    (alerts s) (console_errors s) (downloads s).

Definition log_error (s : State C) (msg : string) : State C :=
  mkState (pdfDocument s) (currentPage s) (coordinates s) (annotations s)
    (isDrawing s) (currentBox s) (selectedAnnotationId s)
    (pdfContext s) (annotationContext s) (drawingContext s)
    (canvas_width s) (canvas_height s)
    (alerts s) (console_errors s ++ [msg]) (downloads s).

Definition show_alert (s : State C) (msg : string) : State C :=
  mkState (pdfDocument s) (currentPage s) (coordinates s) (annotations s)
    (isDrawing s) (currentBox s) (selectedAnnotationId s)
    (pdfContext s) (annotationContext s) (drawingContext s)
    (canvas_width s) (canvas_height s)
    (alerts s ++ [msg]) (console_errors s) (downloads s).

Definition set_document (s : State C) (pdf : option PDFDocumentProxy)
  : State C :=
  mkState pdf (currentPage s) (coordinates s) (annotations s)
    (isDrawing s) (currentBox s) (selectedAnnotationId s)
    (pdfContext s) (annotationContext s) (drawingContext s)
    (canvas_width s) (canvas_height s)
    (alerts s) (console_errors s) (downloads s).

Definition set_currentPage (s : State C) (v : Z) : State C :=
  mkState (pdfDocument s) v (coordinates s) (annotations s)
    (isDrawing s) (currentBox s) (selectedAnnotationId s)
    (pdfContext s) (annotationContext s) (drawingContext s)
    (canvas_width s) (canvas_height s)
    (alerts s) (console_errors s) (downloads s).

(** [let scale = 1.5] *)
Definition scale : number := Fin (Q2Qc (3 # 2)).

(** [renderPage]; an awaited promise is a step like the others, and when it
    rejects nothing after it runs. *)
Definition renderPage (pageNumber : Z) (a : App) : App :=
  match pdfDocument (stores a) with
  | None => a
  | Some pdf =>
      match proxy_getPage pdf pageNumber with
      | None => a
      | Some page =>
          let viewport := getViewport page (num 1) in
          let pdfWidth := fst viewport in
          let pdfHeight := snd viewport in
          let renderViewport := getViewport page scale in
          let sized :=
            set_canvas (stores a)
              (canvas_dimension (fst renderViewport))
              (canvas_dimension (snd renderViewport)) in
          if negb pdfCanvas_2d || negb drawingCanvas_2d
             || negb annotationCanvas_2d
          then
            with_stores a
              (set_contexts
                 (log_error sized "Could not get canvas context")
                 false false false)
          else
            let ready := set_contexts sized true true true in
            if render page
            then mkApp ready (numPages a) true
                   (readout_listeners a ++ [(pdfWidth, pdfHeight)])
            else with_stores a ready
      end
  end.

(** [loadPdf] *)
Definition loadPdf (pdfData : FileData) (a : App) : App :=
  match getDocument pdfData with
  | None => a
  | Some loadedPdf =>
      renderPage 1
        (mkApp (set_document (stores a) (Some loadedPdf))
           (proxy_numPages loadedPdf)
           (drawing_listeners a) (readout_listeners a))
  end.

(** [onFileChange], with the first of the chosen files if there is one; the
    file reader is taken to deliver the bytes of the file. *)
Definition onFileChange (file : option File) (a : App) : App :=
  match file with
  | Some f =>
      if String.eqb (file_type f) "application/pdf"
      then loadPdf (file_data f) a
      else with_stores a
             (show_alert (stores a) "Please upload a valid PDF file.")
  | None =>
      with_stores a
        (show_alert (stores a) "Please upload a valid PDF file.")
  end.

(** [onPageChange]; the page number in the store is integral, so that
    [parseInt] of its text gives it back. *)
Definition onPageChange (a : App) : App :=
  let pageNumber := currentPage (stores a) in
  match pdfDocument (stores a) with
  | Some _ =>
      if (1 <=? pageNumber)%Z && (pageNumber <=? numPages a)%Z
      then renderPage pageNumber a
      else a
  | None => a
  end.

(** An input event of the page field with the integral value [v]: the
    binding writes the store, then [onPageChange] runs. *)
Definition pageInput (v : Z) (a : App) : App :=
  onPageChange (with_stores a (set_currentPage (stores a) v)).

(** The events of the drawing canvas go to the listeners in the order in
    which they were added.  [drawing_left] and [drawing_top] are the corner
    of the drawing canvas, which the read-out listeners use. *)
Definition mousedown (now : Z) (event : MouseEvent) (a : App) : App :=
  if drawing_listeners a
  then with_stores a (startDrawingBox now event (stores a))
  else a.

Definition mousemove (event : MouseEvent) (drawing_left drawing_top : number)
  (a : App) : App :=
  if drawing_listeners a
  then
    with_stores a
      (fold_left
         (fun st size =>
            trackCoordinates (fst size) (snd size)
              (mkMouse (clientX event) (clientY event)
                 drawing_left drawing_top) st)
         (readout_listeners a)
         (updateDrawingBox event (stores a)))
  else a.

Definition mouseup (a : App) : App :=
  if drawing_listeners a
  then with_stores a (endDrawingBox (stores a))
  else a.

Definition mouseout (a : App) : App :=
  if drawing_listeners a
  then
    with_stores a
      (fold_left (fun st _ => resetCoordinates st) (readout_listeners a)
         (endDrawingBox (stores a)))
  else a.

(** What can happen to the page component: the events of the drawing
    canvas, the keydown of the window, the callbacks of the list items, the
    click on Download, the input of the page field and the choice of a
    file. *)
Inductive Event : Type :=
| MouseDown (now : Z) (event : MouseEvent)
| MouseMove (event : MouseEvent) (drawing_left drawing_top : number)
| MouseUp
| MouseOut
| KeyDown (event : KeyboardEvent)
| OnSelect (i : Z)
| OnEdit (i : Z) (n : string)
| OnRemove (i : Z)
| Download
| PageInput (v : Z)
| FileChange (file : option File).

Definition step (a : App) (e : Event) : App :=
  match e with
  | MouseDown now event => mousedown now event a
  | MouseMove event l t => mousemove event l t a
  | MouseUp => mouseup a
  | MouseOut => mouseout a
  | KeyDown event =>
      with_stores a (handleKeyboardBoxControl event (stores a))
  | OnSelect i => with_stores a (selectAnnotation i (stores a))
  | OnEdit i n => with_stores a (editAnnotation i n (stores a))
  | OnRemove i => with_stores a (removeAnnotation i (stores a))
  | Download => with_stores a (addFieldsAndDownload (stores a))
  | PageInput v => pageInput v a
  | FileChange file => onFileChange file a
  end.

Definition run (events : list Event) (a : App) : App :=
  fold_left step events a.

(** The component as it is mounted: empty stores, no context, and canvases
    of the default size of a canvas element. *)
Definition initial : App :=
  mkApp
    (mkState None 1 (mkCoordinates (num 0) (num 0)) [] false None None
       false false false (num 300) (num 150) [] [] [])
    0 false [].

(** The values of [Date.now()] at the mousedowns, in order. *)
Definition timestamps (events : list Event) : list Z :=
  flat_map (fun e => match e with
                     | MouseDown now _ => [now]
                     | _ => []
                     end) events.

(** What holds of the stores whatever has happened to the component: a
    drag is in progress exactly when there is a box in progress; the three
    contexts are there or missing together, and are there only with a
    document loaded; so are annotations; and no stored annotation has a
    width or a height of zero. *)
Definition sound_stores (s : State C) : Prop :=
  isDrawing s
  = match currentBox s with Some _ => true | None => false end
  /\ pdfContext s = drawingContext s
  /\ annotationContext s = drawingContext s
  /\ (drawingContext s = true -> pdfDocument s <> None)
  /\ (annotations s <> [] -> pdfDocument s <> None)
  /\ Forall (fun box => Num.nonzero (width box) && Num.nonzero (height box)
                        = true)
       (annotations s).

(** The same of the component: moreover the drawing handlers listen
    exactly when a read-out listener does. *)
Definition consistent (a : App) : Prop :=
  sound_stores (stores a)
  /\ (drawing_listeners a = true <-> readout_listeners a <> []).

(** The ids of the store are in strictly ascending order and at most [T],
    and below the id of the box in progress, which is at most [T] too. *)
Definition ids_ordered (T : Z) (s : State C) : Prop :=
  StronglySorted Z.lt (map id (annotations s))
  /\ Forall (fun i => (i <= T)%Z) (map id (annotations s))
  /\ (forall box, currentBox s = Some box ->
        (id box <= T)%Z
        /\ Forall (fun i => (i < id box)%Z) (map id (annotations s))).

End Loading.

Arguments App {C} R.
Arguments File {C} R.

(** A renderer for the small model of the libraries: the data of a file is
    the sizes of its pages, a viewport is the size of the page times the
    scale, a canvas keeps the whole part of a dimension, and every canvas
    gives a context. *)
Module SampleViewer.

Definition whole (v : number) : number :=
  match v with
  | Fin q => Fin (Q2Qc (inject_Z (Qfloor q)))
  | _ => num 0
  end.

Definition page_of (sizes : list (number * number)) (n : Z)
  : option (number * number) :=
  if (n <? 1)%Z then None else nth_error sizes (Z.to_nat (n - 1)).

Definition viewer : @Renderer Sample.pdf :=
  @Build_Renderer Sample.pdf
    (list (number * number))
    (number * number)
    (fun sizes => Some sizes)
    (fun sizes => Z.of_nat (List.length sizes))
    page_of
    (fun size k => ((fst size * k)%num, (snd size * k)%num))
    (fun _ => true)
    whole
    true true true.

(** The same renderer when the pdf canvas gives no 2d context. *)
Definition blind : @Renderer Sample.pdf :=
  @Build_Renderer Sample.pdf
    (list (number * number))
    (number * number)
    (fun sizes => Some sizes)
    (fun sizes => Z.of_nat (List.length sizes))
    page_of
    (fun size k => ((fst size * k)%num, (snd size * k)%num))
    (fun _ => true)
    whole
    false true true.

(** A file of three pages of 600 x 800 points. *)
Definition three_pages : File viewer :=
  @mkFile Sample.pdf viewer "application/pdf"
    [(num 600, num 800); (num 600, num 800); (num 600, num 800)].

(** The component after that file was chosen. *)
Definition loaded : App viewer :=
  run (R := viewer) [FileChange (Some three_pages)] (initial (R := viewer)).

(** The component under the renderer without context, with a document of
    one page in its store. *)
Definition unpainted : App blind :=
  @with_stores Sample.pdf blind (@initial Sample.pdf blind)
    (@set_document Sample.pdf
       (stores (@initial Sample.pdf blind))
       (@Some (list (number * number)) [(num 600, num 800)])).

End SampleViewer.

(** [pageAnnotationMap[k]] *)
Fixpoint lookup (m : PageMap) (k : Z) : option (list AnnotationBox) :=
  match m with
  | [] => None
  | (k', boxes) :: m' => if (k' =? k)%Z then Some boxes else lookup m' k
  end.

(** The annotations of page [k], in the order of the store. *)
Definition on_page (k : Z) (l : list AnnotationBox) : list AnnotationBox :=
  filter (fun box => (page box =? k)%Z) l.

(** [c] is a call that places an annotation of the store of [s]: the
    creation of its field, or the placement of that field on its page. *)
Definition placement_of `{C : Collaborators} (s : State C) (c : Call)
  : Prop :=
  exists box, In box (annotations s) /\
    match c with
    | CreateTextField n => n = fieldName box
    | AddToPage i o =>
        i = (page box - 1)%Z /\
        exists pdfDoc pdfPage,
          getPage pdfDoc i = Some pdfPage /\
          o = fieldOptions box (canvas_width s) (canvas_height s)
                (fst (getSize pdfPage)) (snd (getSize pdfPage))
    end.

(** The two calls that place [box] on a page of size [size], the page of
    index [pageIndex]. *)
Definition box_calls (canvasWidth canvasHeight : number) (pageIndex : Z)
  (size : number * number) (box : AnnotationBox) : list Call :=
  [CreateTextField (fieldName box);
   AddToPage pageIndex
     (fieldOptions box canvasWidth canvasHeight (fst size) (snd size))].

(** [calls] are the calls of the batch [entry]: the page of the batch has
    been fetched, and its boxes are placed on it one after the other. *)
Definition batch_calls `{C : Collaborators} (s : State C)
  (entry : Z * list AnnotationBox) (calls : list Call) : Prop :=
  exists pdfDoc pdfPage,
    getPage pdfDoc (fst entry - 1) = Some pdfPage /\
    calls =
      flat_map
        (box_calls (canvas_width s) (canvas_height s) (fst entry - 1)
           (getSize pdfPage))
        (snd entry).

(** [s'] differs from [s] in the store and the drag in progress at most. *)
Definition untouched_by_drawing `{C : Collaborators} (s s' : State C)
  : Prop :=
  pdfDocument s' = pdfDocument s
  /\ currentPage s' = currentPage s
  /\ coordinates s' = coordinates s
  /\ selectedAnnotationId s' = selectedAnnotationId s
  /\ pdfContext s' = pdfContext s
  /\ annotationContext s' = annotationContext s
  /\ drawingContext s' = drawingContext s
  /\ canvas_width s' = canvas_width s
  /\ canvas_height s' = canvas_height s
  /\ alerts s' = alerts s
  /\ console_errors s' = console_errors s
  /\ downloads s' = downloads s.

(** ** Page numbers as keys

    The page number of a box becomes a key of [pageAnnotationMap], the
    text of the number, and [parseInt] reads the page back from the key;
    likewise [onPageChange] reads the page number from its text.  Below
    10^21 in absolute value the text of an integral number is its decimal
    digits and [parseInt] gives the number back, which is how [placePage]
    and [onPageChange] above have it; from 10^21 on the text is in exponent
    notation, and [parseInt] reads the digits before the point only. *)
Definition prints_in_decimal (p : Z) : Prop := (Z.abs p < 10 ^ 21)%Z.

(** ** The copy of the drawing canvas

    After it has appended the box and before it resets the drag,
    [endDrawingBox] copies the drawing canvas to the annotation layer:
    [annotationContext.drawImage(drawingCanvas, 0, 0)].  [drawImage] throws
    an InvalidStateError when the canvas it is given has a width or a
    height of 0, and the handler stops there; on any other canvas the call
    changes nothing of the state, and the handler is [endDrawingBox] as
    above. *)

(** The drawing canvas has a width and a height other than 0. *)
Definition drawable `{C : Collaborators} (s : State C) : bool :=
  Num.nonzero (canvas_width s) && Num.nonzero (canvas_height s).

(** [endDrawingBox] with the copy: the state that the handler leaves, and
    whether it threw. *)
Definition endDrawingBox_throwing `{C : Collaborators} (s : State C)
  : State C * bool :=
  match isDrawing s, currentBox s with
  | true, Some box =>
      if negb (pdfContext s) || negb (drawingContext s)
         || negb (annotationContext s)
      then (s, false)
      else
        let s1 :=
          if Num.nonzero (width box) && Num.nonzero (height box)
          then set_annotations s (annotations s ++ [box])
          else s in
        if drawable s
        then (set_drawing s1 false None, false)
        else (s1, true)
  | _, _ => (s, false)
  end.


Section Throwing.

Context `{R : Renderer}.

(** An exception thrown by a listener is reported, and the listeners
    after it are still called. *)
Definition mouseup_throwing (a : App R) : App R :=
  if drawing_listeners a
  then with_stores a (fst (endDrawingBox_throwing (stores a)))
  else a.

Definition mouseout_throwing (a : App R) : App R :=
  if drawing_listeners a
  then
    with_stores a
      (fold_left (fun st _ => resetCoordinates st) (readout_listeners a)
         (fst (endDrawingBox_throwing (stores a))))
  else a.

Definition step_throwing (a : App R) (e : Event) : App R :=
  match e with
  | MouseUp => mouseup_throwing a
  | MouseOut => mouseout_throwing a
  | _ => step a e
  end.

Definition run_throwing (events : list Event) (a : App R) : App R :=
  fold_left step_throwing events a.

(** [s'] has the canvas and the document of [s]. *)
Definition same_canvas (s s' : State C) : Prop :=
  canvas_width s' = canvas_width s
  /\ canvas_height s' = canvas_height s
  /\ pdfDocument s' = pdfDocument s.

(** Every page of the document gives canvases of a width and a height
    other than 0 when it is rendered. *)
Definition well_sized (pdf : PDFDocumentProxy) : Prop :=
  forall (n : Z) (page : PDFPageProxy),
    proxy_getPage pdf n = Some page ->
    Num.nonzero (canvas_dimension (fst (getViewport page scale))) = true
    /\ Num.nonzero (canvas_dimension (snd (getViewport page scale))) = true.

(** The files chosen among the events. *)
Definition chosen (events : list Event) : list (File R) :=
  flat_map (fun e => match e with
                     | FileChange (Some f) => [f]
                     | _ => []
                     end) events.

(** The drawing canvas can be copied, and will be after any render of the
    document in the store. *)
Definition never_flat (a : App R) : Prop :=
  drawable (stores a) = true
  /\ (forall pdf, pdfDocument (stores a) = Some pdf -> well_sized pdf).

End Throwing.

(** Equalities between closed numbers: evaluate, then compare the
    rationals up to the proofs that they are reduced. *)
Ltac num_compute :=
  vm_compute; repeat (f_equal; try (apply Qc_is_canon; reflexivity)).

(** * Properties *)

(** ** Numbers *)

Lemma num_eq : forall p q : Qc, (p == q)%Q -> Fin p = Fin q.
Proof. intros p q E. f_equal. now apply Qc_is_canon. Qed.

Lemma is_zero_true : forall q : Qc, Num.is_zero q = true <-> q = Q2Qc 0.
Proof.
  intros q. unfold Num.is_zero.
  destruct (Qc_eq_dec q (Q2Qc 0)); split; congruence.
Qed.

Lemma nonzero_of_Z : forall z : Z, Num.nonzero (num z) = negb (z =? 0)%Z.
Proof.
  intros z. unfold Num.nonzero, Num.of_Z. f_equal.
  destruct (Z.eqb_spec z 0) as [->|Hz].
  - reflexivity.
  - destruct (Num.is_zero (Q2Qc (inject_Z z))) eqn:E; [|reflexivity].
    apply is_zero_true in E. exfalso. apply Hz.
    apply (f_equal this) in E. simpl in E.
    unfold Qred in E. cbn in E.
    destruct (Z.ggcd z 1) as [g [a b]] eqn:G.
    pose proof (Z.ggcd_correct_divisors z 1) as D. rewrite G in D.
    pose proof (Z.ggcd_gcd z 1) as Gg. rewrite G in Gg. simpl in Gg.
    rewrite Z.gcd_1_r in Gg. subst g.
    destruct D as [Dz _]. simpl in E. inversion E. lia.
Qed.

(** ** Drawing *)

Section Drawing.

Context `{C : Collaborators}.

Lemma startDrawingBox_rendered : forall (s : State C) now down,
  rendered s ->
  startDrawingBox now down s =
  set_drawing s true
    (Some (mkBox now (fst (pointer down)) (snd (pointer down))
             (currentPage s) (num 0) (num 0) "")).
Proof.
  intros s now down (Hp & Hd & _).
  unfold startDrawingBox. now rewrite Hp, Hd.
Qed.

Lemma updateDrawingBox_dragging : forall (s : State C) move box,
  rendered s ->
  updateDrawingBox move (set_drawing s true (Some box)) =
  set_drawing s true
    (Some (set_size box (fst (pointer move) - x box)
             (snd (pointer move) - y box))).
Proof.
  intros s move box (Hp & Hd & _).
  unfold updateDrawingBox; simpl. now rewrite Hp, Hd.
Qed.

(** The box in progress after the mousedown and any number of moves. *)
Lemma dragging_box : forall moves (s : State C) now down,
  rendered s ->
  fold_left (fun st move => updateDrawingBox move st) moves
    (startDrawingBox now down s) =
  set_drawing s true
    (Some (mkBox now (fst (pointer down)) (snd (pointer down))
             (currentPage s)
             (fst (drag_extent down moves)) (snd (drag_extent down moves))
             "")).
Proof.
  intros moves s now down R.
  induction moves as [|move moves IH] using rev_ind.
  - simpl. now apply startDrawingBox_rendered.
  - rewrite fold_left_app; simpl. rewrite IH.
    rewrite updateDrawingBox_dragging by assumption.
    unfold drag_extent. rewrite rev_unit. reflexivity.
Qed.

Lemma endDrawingBox_dragging : forall (s : State C) box,
  rendered s ->
  endDrawingBox (set_drawing s true (Some box)) =
  if Num.nonzero (width box) && Num.nonzero (height box)
  then set_drawing (set_annotations s (annotations s ++ [box])) false None
  else set_drawing s false None.
Proof.
  intros s box (Hp & Hd & Ha).
  unfold endDrawingBox; simpl. rewrite Hp, Hd, Ha; simpl.
  now destruct (Num.nonzero (width box) && Num.nonzero (height box)).
Qed.

End Drawing.




(** With a drawing canvas of a width and a height other than 0 the copy
    does not throw, and the handler is [endDrawingBox]. *)
Lemma endDrawingBox_throwing_drawable :
  forall (C : Collaborators) (s : State C),
    drawable s = true ->
    endDrawingBox_throwing s = (endDrawingBox s, false).
Proof.
  intros C s Hd. unfold endDrawingBox_throwing, endDrawingBox.
  rewrite Hd.
  destruct (isDrawing s); [|reflexivity].
  destruct (currentBox s); [|reflexivity].
  now destruct (negb (pdfContext s) || negb (drawingContext s)
                || negb (annotationContext s)).
Qed.





(** ** Selection and removal *)

(** C2, as amended: removing an annotation always clears the selection,
    whether the removed id was the selected one or not, and the store keeps
    the annotations of every other id, in order. *)
Theorem remove_always_clears_selection :
  forall (C : Collaborators) (s : State C) (i : Z),
    selectedAnnotationId (removeAnnotation i s) = None
    /\ annotations (removeAnnotation i s) =
         filter (fun box => negb (id box =? i)%Z) (annotations s).
Proof.
  intros C s i. split; reflexivity.
Qed.

(** C2, as stated, fails: with the boxes 1 and 2 in the store and box 1
    selected, removing box 2 leaves nothing selected. *)
Lemma remove_other_loses_selection :
  selectedAnnotationId
    (Sample.editor [Sample.box1; Sample.box2] (Some 1)) = Some 1
  /\ selectedAnnotationId
       (removeAnnotation 2
          (Sample.editor [Sample.box1; Sample.box2] (Some 1))) = None
  /\ annotations
       (removeAnnotation 2
          (Sample.editor [Sample.box1; Sample.box2] (Some 1)))
     = [Sample.box1].
Proof.
  repeat split; reflexivity.
Qed.

(** ** Nudging *)

Section Nudging.

Context `{C : Collaborators}.

Lemma handleKeyboardBoxControl_active : forall (s : State C) event i,
  selectedAnnotationId s = Some i -> i <> 0 ->
  pdfContext s = true -> drawingContext s = true ->
  (exists b, In b (annotations s) /\ id b = i) ->
  annotations (handleKeyboardBoxControl event s) =
  map (fun box =>
         if (id box =? i)%Z
         then nudge event (if shiftKey event then num 10 else num 1) box
         else box)
      (annotations s).
Proof.
  intros s event i Hsel Hi Hp Hd (b & Hin & Hb).
  unfold handleKeyboardBoxControl. rewrite Hsel, Hp, Hd. simpl.
  destruct (Z.eqb_spec i 0) as [|_]; [contradiction|]. simpl.
  destruct (find (is_selected (Some i)) (annotations s)) eqn:F.
  - reflexivity.
  - exfalso. apply (find_none _ _ F) in Hin. simpl in Hin.
    rewrite Hb, Z.eqb_refl in Hin. discriminate.
Qed.

Lemma nudge_keeps : forall event step box,
  id (nudge event step box) = id box
  /\ page (nudge event step box) = page box
  /\ width (nudge event step box) = width box
  /\ height (nudge event step box) = height box
  /\ name (nudge event step box) = name box.
Proof.
  intros event step box. unfold nudge.
  repeat match goal with
         | |- context [if ?c then _ else _] => destruct c
         end; repeat split; reflexivity.
Qed.

End Nudging.

(** C4: with no selection a keydown leaves the state as it is.  With an
    annotation selected and in the store, every box keeps its place in the
    store, its id, page, size and name; a box of another id is unchanged;
    and the selected box has x moved by -step (ArrowLeft) or +step
    (ArrowRight) with y kept, or y moved by -step (ArrowUp) or +step
    (ArrowDown) with x kept, where step is 10 with shift and 1 without. *)
Theorem nudge_moves_selected :
  forall (C : Collaborators) (s : State C) (event : KeyboardEvent),
    (selectedAnnotationId s = None ->
     handleKeyboardBoxControl event s = s)
    /\
    (forall i : Z,
       selectedAnnotationId s = Some i -> i <> 0 ->
       pdfContext s = true -> drawingContext s = true ->
       (exists b, In b (annotations s) /\ id b = i) ->
       List.length (annotations (handleKeyboardBoxControl event s))
       = List.length (annotations s)
       /\
       forall (n : nat) (b : AnnotationBox),
         nth_error (annotations s) n = Some b ->
         exists b',
           nth_error (annotations (handleKeyboardBoxControl event s)) n
           = Some b'
           /\ id b' = id b /\ page b' = page b
           /\ width b' = width b /\ height b' = height b
           /\ name b' = name b
           /\ (id b <> i -> b' = b)
           /\ (id b = i ->
               let step := if shiftKey event then num 10 else num 1 in
               (key event = "ArrowLeft" ->
                x b' = (x b - step)%num /\ y b' = y b)
               /\ (key event = "ArrowRight" ->
                   x b' = (x b + step)%num /\ y b' = y b)
               /\ (key event = "ArrowUp" ->
                   y b' = (y b - step)%num /\ x b' = x b)
               /\ (key event = "ArrowDown" ->
                   y b' = (y b + step)%num /\ x b' = x b))).
Proof.
  intros C s event. split.
  - intros Hsel. unfold handleKeyboardBoxControl. now rewrite Hsel.
  - intros i Hsel Hi Hp Hd Hin.
    rewrite (handleKeyboardBoxControl_active s event i) by assumption.
    split; [apply List.length_map|].
    intros n b Hn. rewrite nth_error_map, Hn. simpl.
    eexists; split; [reflexivity|].
    destruct (Z.eqb_spec (id b) i) as [E|E].
    + destruct (nudge_keeps event
                  (if shiftKey event then num 10 else num 1) b)
        as (K1 & K2 & K3 & K4 & K5).
      repeat (split; [assumption|]).
      split; [intros; contradiction|].
      intros _. cbv zeta. unfold nudge.
      split; [|split; [|split]]; intros K; rewrite K; simpl;
        split; reflexivity.
    + repeat (split; [reflexivity|]).
      intros; contradiction.
Qed.

Lemma nudge_moves_selected_witness :
  handleKeyboardBoxControl (mkKey "ArrowLeft" true)
    (Sample.editor [Sample.box1; Sample.box2] None)
  = Sample.editor [Sample.box1; Sample.box2] None
  /\ exists b',
       nth_error
         (annotations
            (handleKeyboardBoxControl (mkKey "ArrowUp" true)
               (Sample.editor [Sample.box1; Sample.box2] (Some 2)))) 1
       = Some b'
       /\ y b' = (num 50 - num 10)%num /\ x b' = num 50.
Proof.
  split.
  - apply (proj1 (nudge_moves_selected Sample.pdf
                    (Sample.editor [Sample.box1; Sample.box2] None)
                    (mkKey "ArrowLeft" true))).
    reflexivity.
  - destruct (proj2 (nudge_moves_selected Sample.pdf
                (Sample.editor [Sample.box1; Sample.box2] (Some 2))
                (mkKey "ArrowUp" true))
              2 eq_refl ltac:(lia) eq_refl eq_refl
              (ex_intro _ Sample.box2 (conj (or_intror (or_introl eq_refl))
                                         eq_refl)))
      as [_ Hnth].
    destruct (Hnth 1%nat Sample.box2 eq_refl)
      as (b' & Hb' & _ & _ & _ & _ & _ & _ & Hmove).
    exists b'. split; [exact Hb'|].
    exact (proj1 (proj2 (proj2 (Hmove eq_refl))) eq_refl).
Defined.

(** ** Export: the outcome *)

Section Outcome.

Context `{C : Collaborators}.

Lemma export_failure : forall (s : State C) pdf step,
  pdfDocument s = Some pdf ->
  snd (exportBytes pdf s []) = inl step ->
  addFieldsAndDownload s =
  report_error s "Error creating PDF:"
    "Error creating PDF. Check console for details.".
Proof.
  intros s pdf step Hdoc Hfail.
  unfold addFieldsAndDownload. now rewrite Hdoc, Hfail.
Qed.

Lemma export_success : forall (s : State C) pdf bytes,
  pdfDocument s = Some pdf ->
  snd (exportBytes pdf s []) = inr bytes ->
  addFieldsAndDownload s = add_download s "annotated.pdf" bytes.
Proof.
  intros s pdf bytes Hdoc Hok.
  unfold addFieldsAndDownload. now rewrite Hdoc, Hok.
Qed.

(** The result of one placement, step by step. *)
Lemma placeField_result :
  forall pageIndex pdfPage cw ch pw ph pdfDoc box log,
    snd (placeField pageIndex pdfPage cw ch pw ph pdfDoc box log) =
    match createTextField pdfDoc (fieldName box) with
    | None => inl StepCreateTextField
    | Some created =>
        match addToPage (fst created) (snd created) pdfPage
                (fieldOptions box cw ch pw ph) with
        | None => inl StepAddToPage
        | Some pdfDoc' => inr pdfDoc'
        end
    end.
Proof.
  intros. unfold placeField, bind, record, attempt. simpl.
  destruct (createTextField pdfDoc (fieldName box)) as [created|];
    [|reflexivity].
  now destruct (addToPage _ _ _ _).
Qed.

(** The export stops at the step that fails: reading the bytes, loading
    them, one of the placements, or saving. *)
Lemma export_fails_iff : forall (s : State C) pdf,
  (exists step, snd (exportBytes pdf s []) = inl step) <->
  getData pdf = None
  \/ exists pdfBytes, getData pdf = Some pdfBytes /\
       (PDFDocument_load pdfBytes = None
        \/ exists pdfDoc, PDFDocument_load pdfBytes = Some pdfDoc /\
             ((exists step,
                 snd (for_of (Object_entries (groupByPage (annotations s)))
                        (placePage (canvas_width s) (canvas_height s))
                        pdfDoc []) = inl step)
              \/ exists pdfDoc',
                   snd (for_of
                          (Object_entries (groupByPage (annotations s)))
                          (placePage (canvas_width s) (canvas_height s))
                          pdfDoc []) = inr pdfDoc'
                   /\ save pdfDoc' = None)).
Proof.
  intros s pdf. unfold exportBytes, bind, attempt.
  destruct (getData pdf) as [pdfBytes|]; simpl.
  2:{ split; [intros _; left; reflexivity|]. intros _. eexists; reflexivity. }
  destruct (PDFDocument_load pdfBytes) as [pdfDoc|] eqn:Ld; simpl.
  2:{ split.
      - intros _. right. exists pdfBytes. split; [reflexivity|left; exact Ld].
      - intros _. eexists; reflexivity. }
  destruct (for_of _ _ pdfDoc []) as [log [step|pdfDoc']] eqn:L; simpl.
  - split.
    + intros _. right. exists pdfBytes. split; [reflexivity|]. right.
      exists pdfDoc. split; [exact Ld|]. left. exists step. now rewrite L.
    + intros _. eexists; reflexivity.
  - destruct (save pdfDoc') as [bytes|] eqn:S; simpl.
    + split.
      * intros [step H]. discriminate.
      * intros [H|(b & Hb & [H|(d & Hd & [[st H]|(d' & H & H')])])];
          try discriminate.
        -- injection Hb as <-. congruence.
        -- injection Hb as <-. rewrite Ld in Hd. injection Hd as <-.
           rewrite L in H. discriminate.
        -- injection Hb as <-. rewrite Ld in Hd. injection Hd as <-.
           rewrite L in H. simpl in H. injection H as <-. congruence.
    + split.
      * intros _. right. exists pdfBytes. split; [reflexivity|]. right.
        exists pdfDoc. split; [exact Ld|]. right.
        exists pdfDoc'. rewrite L. now split.
      * intros _. eexists; reflexivity.
Qed.

End Outcome.

(** C8: when the export stops at a failing step, nothing is downloaded,
    exactly one alert is shown and one error logged, and the store and the
    selection are as before. *)
Theorem failed_export_aborts :
  forall (C : Collaborators) (s : State C) (pdf : PDFDocumentProxy)
         (step : ExportStep),
    pdfDocument s = Some pdf ->
    snd (exportBytes pdf s []) = inl step ->
    downloads (addFieldsAndDownload s) = downloads s
    /\ alerts (addFieldsAndDownload s) =
         alerts s ++ ["Error creating PDF. Check console for details."]
    /\ console_errors (addFieldsAndDownload s) =
         console_errors s ++ ["Error creating PDF:"]
    /\ annotations (addFieldsAndDownload s) = annotations s
    /\ selectedAnnotationId (addFieldsAndDownload s) =
         selectedAnnotationId s.
Proof.
  intros C s pdf step Hdoc Hfail.
  rewrite (export_failure s pdf step Hdoc Hfail).
  repeat split; reflexivity.
Qed.

(** Two boxes under one name: the second field cannot be created. *)
Lemma failed_export_aborts_witness :
  downloads
    (addFieldsAndDownload
       (Sample.editor [set_name Sample.box1 "a"; set_name Sample.box2 "a"]
          None)) = []
  /\ alerts
       (addFieldsAndDownload
          (Sample.editor
             [set_name Sample.box1 "a"; set_name Sample.box2 "a"] None))
     = ["Error creating PDF. Check console for details."].
Proof.
  destruct (failed_export_aborts Sample.pdf
              (Sample.editor
                 [set_name Sample.box1 "a"; set_name Sample.box2 "a"] None)
              [(num 600, num 800); (num 600, num 800); (num 600, num 800)]
              StepCreateTextField eq_refl)
    as (Hd & Ha & _).
  - vm_compute; reflexivity.
  - split; [exact Hd|exact Ha].
Defined.

(** C10: with no document loaded, the click on Download changes nothing:
    no alert, no logged error, no download, the same store, and no call on
    any form. *)
Theorem export_without_document :
  forall (C : Collaborators) (s : State C),
    pdfDocument s = None ->
    addFieldsAndDownload s = s /\ exportCalls s = [].
Proof.
  intros C s Hdoc. unfold addFieldsAndDownload, exportCalls.
  now rewrite Hdoc.
Qed.

Lemma export_without_document_witness :
  addFieldsAndDownload Sample.empty_editor = Sample.empty_editor
  /\ exportCalls Sample.empty_editor = [].
Proof.
  apply (export_without_document Sample.pdf Sample.empty_editor).
  reflexivity.
Defined.

(** ** Export: the grouping by page *)

Section Grouping.

Lemma lookup_group_add : forall m box k,
  lookup (group_add m box) k =
  if (k =? page box)%Z
  then Some (match lookup m k with
             | Some boxes => boxes ++ [box]
             | None => [box]
             end)
  else lookup m k.
Proof.
  induction m as [|[k' boxes] m IH]; intros box k; simpl.
  - rewrite (Z.eqb_sym (page box) k). reflexivity.
  - destruct (Z.eqb_spec k' (page box)) as [E|E]; simpl.
    + subst k'. rewrite (Z.eqb_sym (page box) k).
      now destruct (Z.eqb_spec k (page box)).
    + destruct (Z.eqb_spec k' k) as [E'|E'].
      * subst k'. destruct (Z.eqb_spec k (page box)); congruence.
      * apply IH.
Qed.

Lemma keys_group_add : forall m box k,
  In k (map fst (group_add m box)) <-> In k (map fst m) \/ k = page box.
Proof.
  induction m as [|[k' boxes] m IH]; intros box k; simpl.
  - intuition congruence.
  - destruct (Z.eqb_spec k' (page box)) as [E|E]; simpl.
    + intuition congruence.
    + rewrite IH. tauto.
Qed.

Lemma NoDup_group_add : forall m box,
  NoDup (map fst m) -> NoDup (map fst (group_add m box)).
Proof.
  induction m as [|[k' boxes] m IH]; intros box ND; simpl.
  - constructor; [intros []|constructor].
  - inversion ND as [|? ? Hnotin ND']; subst.
    destruct (Z.eqb_spec k' (page box)) as [E|E]; simpl.
    + now constructor.
    + constructor; [|now apply IH].
      rewrite keys_group_add. intros [H|H]; [contradiction|congruence].
Qed.

Lemma lookup_In : forall m k boxes,
  NoDup (map fst m) ->
  (In (k, boxes) m <-> lookup m k = Some boxes).
Proof.
  induction m as [|[k' boxes'] m IH]; intros k boxes ND; simpl.
  - split; [intros []|discriminate].
  - inversion ND as [|? ? Hnotin ND']; subst.
    destruct (Z.eqb_spec k' k) as [E|E].
    + subst k'. split.
      * intros [H|H]; [congruence|].
        exfalso. apply Hnotin. now apply (in_map fst) in H.
      * intros H. left. congruence.
    + rewrite <- (IH k boxes ND'). split.
      * intros [H|H]; [congruence|assumption].
      * now right.
Qed.

Lemma groupByPage_snoc : forall l box,
  groupByPage (l ++ [box]) = group_add (groupByPage l) box.
Proof.
  intros l box. unfold groupByPage. now rewrite fold_left_app.
Qed.

Lemma NoDup_groupByPage : forall l, NoDup (map fst (groupByPage l)).
Proof.
  induction l as [|box l IH] using rev_ind.
  - constructor.
  - rewrite groupByPage_snoc. now apply NoDup_group_add.
Qed.

Lemma keys_groupByPage : forall l k,
  In k (map fst (groupByPage l)) <-> exists box, In box l /\ page box = k.
Proof.
  induction l as [|box l IH] using rev_ind; intros k.
  - simpl. split; [intros []|intros (b & [] & _)].
  - rewrite groupByPage_snoc, keys_group_add, IH. split.
    + intros [(b & Hb & Hk)|Hk].
      * exists b. split; [apply in_or_app; now left|assumption].
      * exists box. split; [apply in_or_app; right; now left|congruence].
    + intros (b & Hb & Hk). apply in_app_or in Hb as [Hb|[Hb|[]]].
      * left. now exists b.
      * right. congruence.
Qed.

Lemma lookup_groupByPage : forall l k,
  lookup (groupByPage l) k =
  match on_page k l with
  | [] => None
  | boxes => Some boxes
  end.
Proof.
  induction l as [|box l IH] using rev_ind; intros k.
  - reflexivity.
  - rewrite groupByPage_snoc, lookup_group_add, IH.
    unfold on_page. rewrite filter_app. simpl.
    rewrite (Z.eqb_sym (page box) k).
    destruct (Z.eqb_spec k (page box)) as [E|E].
    + destruct (filter _ l); reflexivity.
    + rewrite app_nil_r. reflexivity.
Qed.

Lemma insert_entry_perm : forall e l, Permutation (insert_entry e l) (e :: l).
Proof.
  intros e l. induction l as [|e' l IH]; simpl.
  - apply Permutation_refl.
  - destruct (fst e <=? fst e')%Z.
    + apply Permutation_refl.
    + apply perm_trans with (e' :: e :: l).
      * now apply perm_skip.
      * apply perm_swap.
Qed.

Lemma sort_entries_perm : forall l, Permutation (sort_entries l) l.
Proof.
  induction l as [|e l IH]; simpl.
  - apply perm_nil.
  - apply perm_trans with (e :: sort_entries l).
    + apply insert_entry_perm.
    + now apply perm_skip.
Qed.

Lemma filter_split_perm : forall (A : Type) (f : A -> bool) (l : list A),
  Permutation (filter f l ++ filter (fun a => negb (f a)) l) l.
Proof.
  intros A f l. induction l as [|a l IH]; simpl.
  - apply perm_nil.
  - destruct (f a); simpl.
    + now apply perm_skip.
    + apply Permutation_sym, Permutation_cons_app, Permutation_sym, IH.
Qed.

Lemma Object_entries_perm : forall m, Permutation (Object_entries m) m.
Proof.
  intros m. unfold Object_entries.
  apply perm_trans with
    (filter (fun e => is_array_index (fst e)) m
     ++ filter (fun e => negb (is_array_index (fst e))) m).
  - apply Permutation_app_tail, sort_entries_perm.
  - apply filter_split_perm.
Qed.

(** What the outer loop of the export goes through. *)
Lemma batches_spec : forall l,
  NoDup (map fst (Object_entries (groupByPage l)))
  /\ (forall k, In k (map fst (Object_entries (groupByPage l)))
                <-> exists box, In box l /\ page box = k)
  /\ (forall k boxes, In (k, boxes) (Object_entries (groupByPage l)) ->
                      boxes = on_page k l /\ boxes <> []).
Proof.
  intros l.
  pose proof (Object_entries_perm (groupByPage l)) as P.
  pose proof (NoDup_groupByPage l) as ND.
  split; [|split].
  - apply (Permutation_NoDup (Permutation_sym (Permutation_map fst P)) ND).
  - intros k. rewrite <- keys_groupByPage. split.
    + apply Permutation_in. now apply Permutation_map.
    + apply Permutation_in. now apply Permutation_map, Permutation_sym.
  - intros k boxes H.
    apply (Permutation_in _ P) in H.
    apply (lookup_In _ _ _ ND) in H.
    rewrite lookup_groupByPage in H.
    destruct (on_page k l) as [|b bs]; [discriminate|].
    injection H as <-. split; [reflexivity|discriminate].
Qed.

End Grouping.

(** ** Export: the calls on the form *)

Section Trace.

Context `{C : Collaborators}.

Lemma for_of_calls :
  forall (A S : Type) (P : Call -> Prop) (l : list A)
         (body : S -> A -> Export S),
    (forall st a log c,
        In a l -> In c (fst (body st a log)) -> In c log \/ P c) ->
    forall st log c,
      In c (fst (for_of l body st log)) -> In c log \/ P c.
Proof.
  intros A S P l body. induction l as [|a l IH]; intros Hbody st log c.
  - simpl. now left.
  - simpl. unfold bind.
    destruct (body st a log) as [log' [e|st']] eqn:B; simpl.
    + intros Hc. apply (Hbody st a log c); [now left|now rewrite B].
    + intros Hc. apply IH in Hc.
      * destruct Hc as [Hc|Hc]; [|now right].
        apply (Hbody st a log c); [now left|now rewrite B].
      * intros st0 a0 log0 c0 Ha0. apply Hbody. now right.
Qed.

Lemma placeField_calls :
  forall pageIndex pdfPage cw ch pw ph pdfDoc box log,
    fst (placeField pageIndex pdfPage cw ch pw ph pdfDoc box log) =
    match createTextField pdfDoc (fieldName box) with
    | None => log ++ [CreateTextField (fieldName box)]
    | Some _ =>
        (log ++ [CreateTextField (fieldName box)])
        ++ [AddToPage pageIndex (fieldOptions box cw ch pw ph)]
    end.
Proof.
  intros. unfold placeField, bind, record, attempt. simpl.
  destruct (createTextField pdfDoc (fieldName box)) as [created|];
    [|reflexivity].
  now destruct (addToPage _ _ _ _).
Qed.

Lemma placePage_calls : forall cw ch pdfDoc entry log c,
  In c (fst (placePage cw ch pdfDoc entry log)) ->
  In c log
  \/ exists box, In box (snd entry) /\
       match c with
       | CreateTextField n => n = fieldName box
       | AddToPage i o =>
           i = (fst entry - 1)%Z /\
           exists pdfDoc0 pdfPage,
             getPage pdfDoc0 i = Some pdfPage /\
             o = fieldOptions box cw ch
                   (fst (getSize pdfPage)) (snd (getSize pdfPage))
       end.
Proof.
  intros cw ch pdfDoc entry log c.
  unfold placePage, bind, attempt.
  destruct (getPage pdfDoc (fst entry - 1)) as [pdfPage|] eqn:G; simpl.
  2:{ now left. }
  apply (for_of_calls _ _
           (fun c => exists box, In box (snd entry) /\
              match c with
              | CreateTextField n => n = fieldName box
              | AddToPage i o =>
                  i = (fst entry - 1)%Z /\
                  exists pdfDoc0 pdfPage,
                    getPage pdfDoc0 i = Some pdfPage /\
                    o = fieldOptions box cw ch
                          (fst (getSize pdfPage)) (snd (getSize pdfPage))
              end)).
  intros st box log0 c0 Hbox. rewrite placeField_calls.
  destruct (createTextField st (fieldName box)) as [created|].
  - intros H. apply in_app_or in H as [H|[<-|[]]].
    + apply in_app_or in H as [H|[<-|[]]]; [now left|].
      right. now exists box.
    + right. exists box. split; [assumption|].
      split; [reflexivity|]. now exists pdfDoc, pdfPage.
  - intros H. apply in_app_or in H as [H|[<-|[]]]; [now left|].
    right. now exists box.
Qed.

(** The calls of an export are those of its loops. *)
Lemma exportBytes_calls : forall (s : State C) pdf,
  fst (exportBytes pdf s []) =
  match getData pdf with
  | None => []
  | Some pdfBytes =>
      match PDFDocument_load pdfBytes with
      | None => []
      | Some pdfDoc =>
          fst (for_of (Object_entries (groupByPage (annotations s)))
                 (placePage (canvas_width s) (canvas_height s)) pdfDoc [])
      end
  end.
Proof.
  intros s pdf. unfold exportBytes, bind, attempt.
  destruct (getData pdf) as [pdfBytes|]; [|reflexivity]. simpl.
  destruct (PDFDocument_load pdfBytes) as [pdfDoc|]; [|reflexivity]. simpl.
  destruct (for_of _ _ pdfDoc []) as [log [e|pdfDoc']]; [reflexivity|].
  now destruct (save pdfDoc').
Qed.

Lemma export_loop_calls : forall (s : State C) pdfDoc c,
  In c (fst (for_of (Object_entries (groupByPage (annotations s)))
               (placePage (canvas_width s) (canvas_height s)) pdfDoc [])) ->
  placement_of s c.
Proof.
  intros s pdfDoc c Hc.
  apply (for_of_calls _ _ (placement_of s)) in Hc;
    [destruct Hc as [[]|Hc]; exact Hc|].
  intros st [k boxes] log c0 Hentry H0.
  apply placePage_calls in H0 as [H0|(box & Hbox & H0)]; [now left|].
  right. simpl in *.
  destruct (batches_spec (annotations s)) as (_ & _ & Hb).
  destruct (Hb k boxes Hentry) as [-> _].
  apply filter_In in Hbox as [Hbox Hk]. apply Z.eqb_eq in Hk.
  exists box. split; [assumption|].
  destruct c0 as [n|i o]; [assumption|]. now rewrite Hk.
Qed.

(** Every call of an export places an annotation of the store. *)
Lemma exportCalls_sound : forall (s : State C) c,
  In c (exportCalls s) -> placement_of s c.
Proof.
  intros s c. unfold exportCalls.
  destruct (pdfDocument s) as [pdf|]; [|intros []].
  rewrite exportBytes_calls.
  destruct (getData pdf) as [pdfBytes|]; [|intros []].
  destruct (PDFDocument_load pdfBytes) as [pdfDoc|]; [|intros []].
  apply export_loop_calls.
Qed.

(** *** The field names of an export that went through *)

Lemma created_names_app : forall l1 l2,
  created_names (l1 ++ l2) = created_names l1 ++ created_names l2.
Proof. intros. apply flat_map_app. Qed.

Lemma flat_map_singleton : forall (A B : Type) (f : A -> B) (l : list A),
  flat_map (fun a => [f a]) l = map f l.
Proof.
  intros A B f l. induction l as [|a l IH]; simpl; congruence.
Qed.

Lemma flat_map_concat :
  forall (A B D : Type) (f : B -> D) (g : A -> list B) (l : list A),
    flat_map (fun a => map f (g a)) l = map f (List.concat (map g l)).
Proof.
  intros A B D f g l. induction l as [|a l IH]; simpl.
  - reflexivity.
  - now rewrite map_app, IH.
Qed.

Lemma for_of_names :
  forall (A S : Type) (g : A -> list string) (l : list A)
         (body : S -> A -> Export S),
    (forall st a log st',
        snd (body st a log) = inr st' ->
        created_names (fst (body st a log)) = created_names log ++ g a) ->
    forall st log st',
      snd (for_of l body st log) = inr st' ->
      created_names (fst (for_of l body st log))
      = created_names log ++ flat_map g l.
Proof.
  intros A S g l body Hbody.
  induction l as [|a l IH]; intros st log st'; simpl.
  - intros _. now rewrite app_nil_r.
  - unfold bind.
    destruct (body st a log) as [log' [e|st1]] eqn:B; simpl;
      [discriminate|].
    intros H. rewrite (IH _ _ _ H).
    specialize (Hbody st a log st1). rewrite B in Hbody. simpl in Hbody.
    rewrite Hbody by reflexivity. now rewrite app_assoc.
Qed.

Lemma placePage_names : forall cw ch pdfDoc entry log pdfDoc',
  snd (placePage cw ch pdfDoc entry log) = inr pdfDoc' ->
  created_names (fst (placePage cw ch pdfDoc entry log))
  = created_names log ++ map fieldName (snd entry).
Proof.
  intros cw ch pdfDoc entry log pdfDoc'.
  unfold placePage, bind, attempt.
  destruct (getPage pdfDoc (fst entry - 1)) as [pdfPage|]; simpl;
    [|discriminate].
  intros H.
  rewrite (for_of_names _ _ (fun box => [fieldName box]) _ _) with (st' := pdfDoc').
  - now rewrite flat_map_singleton.
  - intros st box log0 st' Hok.
    rewrite placeField_result in Hok. rewrite placeField_calls.
    destruct (createTextField st (fieldName box)); [|discriminate].
    rewrite !created_names_app. simpl. now rewrite app_nil_r.
  - exact H.
Qed.

(** When no step fails, the fields are created batch after batch, and in
    a batch in the order of the store. *)
Lemma exportCalls_names : forall (s : State C) pdf bytes,
  pdfDocument s = Some pdf ->
  snd (exportBytes pdf s []) = inr bytes ->
  created_names (exportCalls s) =
  map fieldName
    (List.concat
       (map snd (Object_entries (groupByPage (annotations s))))).
Proof.
  intros s pdf bytes Hdoc Hok. unfold exportCalls. rewrite Hdoc.
  rewrite exportBytes_calls.
  revert Hok. unfold exportBytes, bind, attempt.
  destruct (getData pdf) as [pdfBytes|]; [|discriminate]. simpl.
  destruct (PDFDocument_load pdfBytes) as [pdfDoc|]; [|discriminate]. simpl.
  destruct (for_of _ _ pdfDoc []) as [log [e|pdfDoc']] eqn:L;
    [discriminate|]. intros _.
  rewrite <- L.
  rewrite (for_of_names _ _ (fun entry => map fieldName (snd entry)) _ _)
    with (st' := pdfDoc').
  - simpl. apply flat_map_concat.
  - intros st entry log0 st'. apply placePage_names.
  - now rewrite L.
Qed.

(** *** The calls of an export that went through *)

Lemma for_of_trace :
  forall (A S : Type) (R : A -> list Call -> Prop) (l : list A)
         (body : S -> A -> Export S),
    (forall st a log st',
        snd (body st a log) = inr st' ->
        exists t, fst (body st a log) = log ++ t /\ R a t) ->
    forall st log st',
      snd (for_of l body st log) = inr st' ->
      exists ts,
        fst (for_of l body st log) = log ++ List.concat ts
        /\ Forall2 R l ts.
Proof.
  intros A S R l body Hbody.
  induction l as [|a l IH]; intros st log st'; simpl.
  - intros _. exists []. simpl. rewrite app_nil_r. now split.
  - unfold bind.
    destruct (body st a log) as [log' [e|st1]] eqn:B; simpl;
      [discriminate|].
    intros H. destruct (IH _ _ _ H) as (ts & Hts & HR).
    destruct (Hbody st a log st1) as (t & Ht & HRa); [now rewrite B|].
    rewrite B in Ht. simpl in Ht. subst log'.
    exists (t :: ts). simpl. rewrite Hts, app_assoc.
    split; [reflexivity|now constructor].
Qed.

Lemma concat_of_calls :
  forall (A : Type) (f : A -> list Call) (l : list A) ts,
    Forall2 (fun a t => t = f a) l ts -> List.concat ts = flat_map f l.
Proof.
  intros A f l ts H. induction H as [|a t l ts Ht _ IH]; simpl.
  - reflexivity.
  - now rewrite Ht, IH.
Qed.

Lemma placePage_trace : forall (s : State C) pdfDoc entry log pdfDoc',
  snd (placePage (canvas_width s) (canvas_height s) pdfDoc entry log)
  = inr pdfDoc' ->
  exists t,
    fst (placePage (canvas_width s) (canvas_height s) pdfDoc entry log)
    = log ++ t
    /\ batch_calls s entry t.
Proof.
  intros s pdfDoc entry log pdfDoc'.
  unfold placePage, bind, attempt.
  destruct (getPage pdfDoc (fst entry - 1)) as [pdfPage|] eqn:G; simpl;
    [|discriminate].
  intros H.
  apply (for_of_trace _ _
           (fun box t =>
              t = box_calls (canvas_width s) (canvas_height s)
                    (fst entry - 1) (getSize pdfPage) box)) in H.
  - destruct H as (ts & Hts & HR).
    exists (List.concat ts). split; [exact Hts|].
    exists pdfDoc, pdfPage. split; [exact G|].
    now apply concat_of_calls.
  - intros st box log0 st' Hok.
    rewrite placeField_result in Hok. rewrite placeField_calls.
    destruct (createTextField st (fieldName box)); [|discriminate].
    eexists. split; [symmetry; apply app_assoc|reflexivity].
Qed.

(** When no step fails, the calls are those of the batches, one batch
    after the other. *)
Lemma exportCalls_batches : forall (s : State C) pdf bytes,
  pdfDocument s = Some pdf ->
  snd (exportBytes pdf s []) = inr bytes ->
  exists ts,
    exportCalls s = List.concat ts
    /\ Forall2 (batch_calls s)
         (Object_entries (groupByPage (annotations s))) ts.
Proof.
  intros s pdf bytes Hdoc Hok. unfold exportCalls. rewrite Hdoc.
  rewrite exportBytes_calls.
  revert Hok. unfold exportBytes, bind, attempt.
  destruct (getData pdf) as [pdfBytes|]; [|discriminate]. simpl.
  destruct (PDFDocument_load pdfBytes) as [pdfDoc|]; [|discriminate]. simpl.
  destruct (for_of _ _ pdfDoc []) as [log [e|pdfDoc']] eqn:L;
    [discriminate|]. intros _.
  rewrite <- L.
  apply (for_of_trace _ _ (batch_calls s)) with (st' := pdfDoc').
  - intros st entry log0 st'. apply placePage_trace.
  - now rewrite L.
Qed.

Lemma Forall2_In_l :
  forall (A B : Type) (R : A -> B -> Prop) (l : list A) (l' : list B) a,
    Forall2 R l l' -> In a l -> exists b, In b l' /\ R a b.
Proof.
  intros A B R l l' a H. induction H as [|x y l l' Hxy _ IH]; simpl.
  - intros [].
  - intros [<-|Ha].
    + exists y. split; [now left|assumption].
    + destruct (IH Ha) as (b & Hb & HR). exists b. split; [now right|assumption].
Qed.

(** When no step fails, every annotation of the store is placed. *)
Lemma exportCalls_complete : forall (s : State C) pdf bytes box,
  pdfDocument s = Some pdf ->
  snd (exportBytes pdf s []) = inr bytes ->
  In box (annotations s) ->
  exists pdfDoc pdfPage,
    getPage pdfDoc (page box - 1) = Some pdfPage
    /\ In (CreateTextField (fieldName box)) (exportCalls s)
    /\ In (AddToPage (page box - 1)
             (fieldOptions box (canvas_width s) (canvas_height s)
                (fst (getSize pdfPage)) (snd (getSize pdfPage))))
          (exportCalls s).
Proof.
  intros s pdf bytes box Hdoc Hok Hbox.
  destruct (exportCalls_batches s pdf bytes Hdoc Hok) as (ts & Hts & HR).
  destruct (batches_spec (annotations s)) as (_ & Hkeys & Hboxes).
  assert (Hk : In (page box)
                 (map fst (Object_entries (groupByPage (annotations s)))))
    by (apply Hkeys; now exists box).
  apply in_map_iff in Hk as ([k boxes] & Hk & Hentry). simpl in Hk. subst k.
  destruct (Hboxes _ _ Hentry) as [Hb _].
  destruct (Forall2_In_l _ _ _ _ _ _ HR Hentry)
    as (t & Ht & d & pg & Hpg & Hcalls).
  simpl in Hpg, Hcalls.
  exists d, pg. split; [exact Hpg|].
  assert (Hin : In box boxes).
  { rewrite Hb. apply filter_In. split; [assumption|apply Z.eqb_refl]. }
  rewrite Hts. split.
  - apply in_concat. exists t. split; [assumption|].
    rewrite Hcalls. apply in_flat_map. exists box.
    split; [assumption|now left].
  - apply in_concat. exists t. split; [assumption|].
    rewrite Hcalls. apply in_flat_map. exists box.
    split; [assumption|right; now left].
Qed.

End Trace.





(** C7: the name of every field that an export creates is that of an
    annotation of the store: its name as it is when that is not empty,
    and Field_ followed by its id when it is; and when no step fails a
    field is created under that name for every annotation of the store. *)
Theorem exported_field_name :
  forall (C : Collaborators) (s : State C),
    (forall n : string,
       In (CreateTextField n) (exportCalls s) ->
       exists box,
         In box (annotations s)
         /\ ((name box <> "" /\ n = name box)
             \/ (name box = ""
                 /\ n = ("Field_" ++ toString (id box))%string)))
    /\ (forall (pdf : PDFDocumentProxy) (bytes : Bytes)
               (box : AnnotationBox),
          pdfDocument s = Some pdf ->
          snd (exportBytes pdf s []) = inr bytes ->
          In box (annotations s) ->
          (name box <> "" ->
           In (CreateTextField (name box)) (exportCalls s))
          /\ (name box = "" ->
              In (CreateTextField ("Field_" ++ toString (id box))%string)
                 (exportCalls s))).
Proof.
  intros C s. split.
  - intros n H.
    apply exportCalls_sound in H as (box & Hbox & Hn).
    exists box. split; [assumption|].
    subst n. unfold fieldName.
    destruct (String.eqb_spec (name box) "") as [E|E].
    + right. now split.
    + left. now split.
  - intros pdf bytes box Hdoc Hok Hbox.
    destruct (exportCalls_complete s pdf bytes box Hdoc Hok Hbox)
      as (_ & _ & _ & Hcreate & _).
    unfold fieldName in Hcreate.
    destruct (String.eqb_spec (name box) "") as [E|E].
    + split; [intros; contradiction|intros _; exact Hcreate].
    + split; [intros _; exact Hcreate|intros; contradiction].
Qed.

Lemma exported_field_name_witness :
  (exists box,
     In box [Sample.unnamed; Sample.named]
     /\ ((name box <> "" /\ "Field_12345" = name box)
         \/ (name box = ""
             /\ "Field_12345" = ("Field_" ++ toString (id box))%string)))
  /\ In (CreateTextField "Name")
        (exportCalls (Sample.editor [Sample.unnamed; Sample.named] None))
  /\ In (CreateTextField ("Field_" ++ toString 12345)%string)
        (exportCalls (Sample.editor [Sample.unnamed; Sample.named] None)).
Proof.
  destruct (exported_field_name Sample.pdf
              (Sample.editor [Sample.unnamed; Sample.named] None))
    as [Hsound Hcomplete].
  assert (Hok :
    snd (exportBytes (C := Sample.pdf)
           [(num 600, num 800); (num 600, num 800); (num 600, num 800)]
           (Sample.editor [Sample.unnamed; Sample.named] None) [])
    = inr (Sample.mkDoc
             [(num 600, num 800); (num 600, num 800); (num 600, num 800)]
             ["Field_12345"; "Name"]
             [("Field_12345", 0,
               fieldOptions Sample.unnamed (num 900) (num 1200)
                 (num 600) (num 800));
              ("Name", 1,
               fieldOptions Sample.named (num 900) (num 1200)
                 (num 600) (num 800))]))
    by (vm_compute; reflexivity).
  split; [|split].
  - apply (Hsound "Field_12345"). vm_compute. left. reflexivity.
  - apply (proj1 (Hcomplete _ _ Sample.named eq_refl Hok
                    (or_intror (or_introl eq_refl)))).
    discriminate.
  - apply (proj2 (Hcomplete _ _ Sample.unnamed eq_refl Hok
                    (or_introl eq_refl))).
    reflexivity.
Defined.

(** ** The conversion over a canvas of size zero *)

Lemma is_zero_false : forall q : Qc, q <> Q2Qc 0 -> Num.is_zero q = false.
Proof.
  intros q Hq. unfold Num.is_zero.
  destruct (Qc_eq_dec q (Q2Qc 0)); [contradiction|reflexivity].
Qed.

Lemma div_by_zero_not_finite : forall q : Qc,
  Num.is_finite (Fin q / num 0)%num = false.
Proof.
  intros q. unfold Num.div, Num.of_Z.
  replace (Num.is_zero (Q2Qc (inject_Z 0))) with true
    by (symmetry; apply is_zero_true; now apply Qc_is_canon).
  unfold Num.inf_of_sign.
  destruct (Num.is_zero q); [reflexivity|].
  now destruct (Num.is_neg q).
Qed.

Lemma mul_not_finite : forall (a : number) (q : Qc),
  Num.is_finite a = false -> Num.is_finite (a * Fin q)%num = false.
Proof.
  intros a q Ha. destruct a as [p| | |]; try discriminate; simpl;
    try reflexivity; unfold Num.inf_of_sign;
    destruct (Num.is_zero q); try reflexivity;
    now destruct (Num.is_neg q).
Qed.

Lemma sub_not_finite : forall (q : Qc) (a : number),
  Num.is_finite a = false -> Num.is_finite (Fin q - a)%num = false.
Proof.
  intros q a Ha. now destruct a.
Qed.

(** C9, as amended: the conversion has no guard.  For finite inputs over a
    canvas dimension that is not zero it is px = cx / canvasWidth * W and
    py = H - cy / canvasHeight * H; over a canvas dimension of zero the
    division is carried out all the same and the result is NaN or an
    infinity; and the read-out handler shows no alert and logs no error. *)
Theorem conversion_divides_unguarded :
  forall (C : Collaborators) (s : State C) (event : MouseEvent)
         (pdfWidth pdfHeight : number) (cx cy cw ch W H : Qc),
    (cw <> Q2Qc 0 ->
     toPdfX (Fin cx) (Fin cw) (Fin W) = Fin (cx / cw * W)%Qc)
    /\ (ch <> Q2Qc 0 ->
        toPdfY (Fin cy) (Fin ch) (Fin H) = Fin (H - cy / ch * H)%Qc)
    /\ Num.is_finite (toPdfX (Fin cx) (num 0) (Fin W)) = false
    /\ Num.is_finite (toPdfY (Fin cy) (num 0) (Fin H)) = false
    /\ alerts (trackCoordinates pdfWidth pdfHeight event s) = alerts s
    /\ console_errors (trackCoordinates pdfWidth pdfHeight event s)
       = console_errors s.
Proof.
  intros C s event pdfWidth pdfHeight cx cy cw ch W H.
  split; [|split; [|split; [|split; [|split]]]].
  - intros Hcw. unfold toPdfX, Num.div.
    now rewrite (is_zero_false cw Hcw).
  - intros Hch. unfold toPdfY, Num.div.
    now rewrite (is_zero_false ch Hch).
  - unfold toPdfX. apply mul_not_finite, div_by_zero_not_finite.
  - unfold toPdfY.
    apply sub_not_finite, mul_not_finite, div_by_zero_not_finite.
  - reflexivity.
  - reflexivity.
Qed.

Lemma conversion_divides_unguarded_witness :
  toPdfX (num 90) (num 900) (num 600) = num 60
  /\ toPdfY (num 120) (num 1200) (num 800) = num 720.
Proof.
  destruct (conversion_divides_unguarded Sample.pdf Sample.empty_editor
              (Sample.at_point 0 0) (num 600) (num 800)
              (Q2Qc (inject_Z 90)) (Q2Qc (inject_Z 120))
              (Q2Qc (inject_Z 900)) (Q2Qc (inject_Z 1200))
              (Q2Qc (inject_Z 600)) (Q2Qc (inject_Z 800)))
    as (Hx & Hy & _).
  split.
  - unfold Num.of_Z. rewrite Hx by discriminate.
    apply num_eq. reflexivity.
  - unfold Num.of_Z. rewrite Hy by discriminate.
    apply num_eq. reflexivity.
Defined.

(** C9, as stated, fails: with a page of half a point on screen, over a
    canvas of 0 x 0, the read-out of a pointer at (0,0) is (NaN, NaN), not
    (0,0), with no alert and no logged error; and the export asks for the
    box of the first page to be placed at infinite coordinates. *)
Lemma zero_canvas_not_guarded :
  coordinates
    (trackCoordinates Sample.half Sample.half (Sample.at_point 0 0)
       (Sample.flat_editor [])) = mkCoordinates NaN NaN
  /\ alerts
       (trackCoordinates Sample.half Sample.half (Sample.at_point 0 0)
          (Sample.flat_editor [])) = []
  /\ console_errors
       (trackCoordinates Sample.half Sample.half (Sample.at_point 0 0)
          (Sample.flat_editor [])) = []
  /\ exportCalls (Sample.flat_editor [Sample.box1]) =
       [CreateTextField "Field_1";
        AddToPage 0 (mkOptions PInf NInf PInf PInf (num 0))].
Proof.
  repeat split; num_compute.
Qed.

(** ** The scenario in binary64

    The quotients of the scenario are not exact in binary64, but the four
    results are: the rounded operations of the export give the same
    rectangle as the exact ones. *)
Module Binary64.

Import PrimFloat.

Lemma scenario_in_binary64 :
  (PrimFloat.eqb (90 / 900 * 600) 60
   && PrimFloat.eqb (800 - 120 / 1200 * 800 - 60 / 1200 * 800) 680
   && PrimFloat.eqb (180 / 900 * 600) 120
   && PrimFloat.eqb (60 / 1200 * 800) 40)%float%bool = true.
Proof. vm_compute. reflexivity. Qed.

End Binary64.

(** * Further properties of the handlers *)

(** ** Renaming and removing *)

(** X1: renaming through the list item changes nothing but names: the
    boxes keep their place, id, page and geometry, a box of the given id
    gets the new name and any other keeps its own; the selection stays;
    and when no box has that id the store is as before. *)
Theorem edit_renames_only :
  forall (C : Collaborators) (s : State C) (i : Z) (n : string),
    map (fun b => (id b, page b, x b, y b, width b, height b))
      (annotations (editAnnotation i n s))
    = map (fun b => (id b, page b, x b, y b, width b, height b))
        (annotations s)
    /\ map name (annotations (editAnnotation i n s))
       = map (fun b => if (id b =? i)%Z then n else name b) (annotations s)
    /\ selectedAnnotationId (editAnnotation i n s) = selectedAnnotationId s
    /\ ((forall b, In b (annotations s) -> id b <> i) ->
        annotations (editAnnotation i n s) = annotations s).
Proof.
  intros C s i n. unfold editAnnotation. simpl.
  split; [|split; [|split]].
  - rewrite map_map. apply map_ext. intros b.
    now destruct (id b =? i)%Z.
  - rewrite map_map. apply map_ext. intros b.
    now destruct (id b =? i)%Z.
  - reflexivity.
  - intros Habsent. rewrite <- (map_id (annotations s)) at 2.
    apply map_ext_in. intros b Hb.
    destruct (Z.eqb_spec (id b) i) as [E|E]; [|reflexivity].
    now apply Habsent in Hb.
Qed.

Lemma edit_renames_only_witness :
  annotations
    (editAnnotation 9 "x" (Sample.editor [Sample.box1; Sample.box2] None))
  = [Sample.box1; Sample.box2].
Proof.
  apply (edit_renames_only Sample.pdf
           (Sample.editor [Sample.box1; Sample.box2] None) 9 "x").
  intros b [<-|[<-|[]]]; discriminate.
Defined.

Lemma filter_twice : forall (A : Type) (f : A -> bool) (l : list A),
  filter f (filter f l) = filter f l.
Proof.
  intros A f l. induction l as [|a l IH]; simpl; [reflexivity|].
  destruct (f a) eqn:E; simpl; [|assumption].
  rewrite E. now f_equal.
Qed.

Lemma filter_all : forall (A : Type) (f : A -> bool) (l : list A),
  (forall a, In a l -> f a = true) -> filter f l = l.
Proof.
  intros A f l H. induction l as [|a l IH]; simpl; [reflexivity|].
  rewrite (H a) by now left. f_equal. apply IH.
  intros a' Ha'. apply H. now right.
Qed.

(** X2: after the removal of an id no box of the store has it, a box of
    another id is in the store exactly when it was before, removing the
    same id again changes nothing more, and when no box had the id the
    store is as before (the selection is cleared all the same). *)
Theorem remove_drops_exactly_the_id :
  forall (C : Collaborators) (s : State C) (i : Z),
    (forall b, In b (annotations (removeAnnotation i s)) -> id b <> i)
    /\ (forall b, id b <> i ->
          (In b (annotations (removeAnnotation i s))
           <-> In b (annotations s)))
    /\ removeAnnotation i (removeAnnotation i s) = removeAnnotation i s
    /\ ((forall b, In b (annotations s) -> id b <> i) ->
        annotations (removeAnnotation i s) = annotations s).
Proof.
  intros C s i. unfold removeAnnotation. simpl.
  split; [|split; [|split]].
  - intros b Hb. apply filter_In in Hb as [_ Hb].
    now destruct (Z.eqb_spec (id b) i).
  - intros b Hb. rewrite filter_In.
    destruct (Z.eqb_spec (id b) i); [contradiction|]. simpl. tauto.
  - unfold set_selected, set_annotations. simpl.
    now rewrite filter_twice.
  - intros Habsent. apply filter_all. intros b Hb.
    destruct (Z.eqb_spec (id b) i) as [E|E]; [|reflexivity].
    now apply Habsent in Hb.
Qed.

Lemma remove_drops_exactly_the_id_witness :
  annotations
    (removeAnnotation 9 (Sample.editor [Sample.box1; Sample.box2] (Some 1)))
  = [Sample.box1; Sample.box2]
  /\ (In Sample.box1
        (annotations
           (removeAnnotation 2
              (Sample.editor [Sample.box1; Sample.box2] (Some 1))))
      <-> In Sample.box1 [Sample.box1; Sample.box2]).
Proof.
  split.
  - apply (remove_drops_exactly_the_id Sample.pdf
             (Sample.editor [Sample.box1; Sample.box2] (Some 1)) 9).
    intros b [<-|[<-|[]]]; discriminate.
  - apply (remove_drops_exactly_the_id Sample.pdf
             (Sample.editor [Sample.box1; Sample.box2] (Some 1)) 2).
    discriminate.
Defined.

(** ** Keys that are not arrows *)

Lemma set_annotations_same : forall (C : Collaborators) (s : State C),
  set_annotations s (annotations s) = s.
Proof. intros C s. now destruct s. Qed.

(** X3: a keydown of any key other than the four arrows leaves the whole
    state as it is, whatever is selected. *)
Theorem other_key_changes_nothing :
  forall (C : Collaborators) (s : State C) (event : KeyboardEvent),
    key event <> "ArrowLeft" -> key event <> "ArrowRight" ->
    key event <> "ArrowUp" -> key event <> "ArrowDown" ->
    handleKeyboardBoxControl event s = s.
Proof.
  intros C s event HL HR HU HD. unfold handleKeyboardBoxControl.
  destruct (negb (truthy_id (selectedAnnotationId s))
            || negb (pdfContext s) || negb (drawingContext s));
    [reflexivity|].
  destruct (find _ (annotations s)); [|reflexivity].
  transitivity (set_annotations s (annotations s));
    [|apply set_annotations_same].
  f_equal. rewrite <- (map_id (annotations s)) at 2.
  apply map_ext. intros b.
  destruct (is_selected (selectedAnnotationId s) b); [|reflexivity].
  unfold nudge.
  destruct (String.eqb_spec (key event) "ArrowLeft"); [contradiction|].
  destruct (String.eqb_spec (key event) "ArrowRight"); [contradiction|].
  destruct (String.eqb_spec (key event) "ArrowUp"); [contradiction|].
  destruct (String.eqb_spec (key event) "ArrowDown"); [contradiction|].
  reflexivity.
Qed.

Lemma other_key_changes_nothing_witness :
  handleKeyboardBoxControl (mkKey "Enter" true)
    (Sample.editor [Sample.box1; Sample.box2] (Some 2))
  = Sample.editor [Sample.box1; Sample.box2] (Some 2).
Proof.
  apply (other_key_changes_nothing Sample.pdf
           (Sample.editor [Sample.box1; Sample.box2] (Some 2))
           (mkKey "Enter" true)); discriminate.
Defined.

(** ** What a drag leaves alone *)

Section DragFrame.

Context `{C : Collaborators}.

Lemma untouched_refl : forall s : State C, untouched_by_drawing s s.
Proof. intros s. repeat split. Qed.

Lemma untouched_trans : forall s1 s2 s3 : State C,
  untouched_by_drawing s1 s2 -> untouched_by_drawing s2 s3 ->
  untouched_by_drawing s1 s3.
Proof.
  unfold untouched_by_drawing. intros s1 s2 s3 H12 H23.
  decompose [and] H12. decompose [and] H23.
  repeat split; congruence.
Qed.

Lemma startDrawingBox_frame : forall (s : State C) now down,
  untouched_by_drawing s (startDrawingBox now down s)
  /\ annotations (startDrawingBox now down s) = annotations s.
Proof.
  intros s now down. unfold startDrawingBox.
  destruct (negb (drawingContext s) || negb (pdfContext s));
    split; try reflexivity; repeat split.
Qed.

Lemma updateDrawingBox_frame : forall (s : State C) move,
  untouched_by_drawing s (updateDrawingBox move s)
  /\ annotations (updateDrawingBox move s) = annotations s.
Proof.
  intros s move. unfold updateDrawingBox.
  destruct (negb (isDrawing s) || negb (drawingContext s)
            || negb (pdfContext s));
    [split; [apply untouched_refl|reflexivity]|].
  destruct (currentBox s); split; try reflexivity; repeat split.
Qed.

Lemma moves_frame : forall moves (s : State C),
  untouched_by_drawing s
    (fold_left (fun st move => updateDrawingBox move st) moves s)
  /\ annotations
       (fold_left (fun st move => updateDrawingBox move st) moves s)
     = annotations s.
Proof.
  induction moves as [|move moves IH]; intros s; simpl.
  - split; [apply untouched_refl|reflexivity].
  - destruct (IH (updateDrawingBox move s)) as [U A].
    destruct (updateDrawingBox_frame s move) as [U0 A0].
    split; [now apply untouched_trans with (updateDrawingBox move s)|].
    congruence.
Qed.

Lemma endDrawingBox_frame : forall s : State C,
  untouched_by_drawing s (endDrawingBox s)
  /\ (annotations (endDrawingBox s) = annotations s
      \/ exists box,
           annotations (endDrawingBox s) = annotations s ++ [box]
           /\ currentBox s = Some box
           /\ Num.nonzero (width box) = true
           /\ Num.nonzero (height box) = true).
Proof.
  intros s. unfold endDrawingBox.
  destruct (isDrawing s); [|split; [apply untouched_refl|now left]].
  destruct (currentBox s) as [box|];
    [|split; [apply untouched_refl|now left]].
  destruct (negb (pdfContext s) || negb (drawingContext s)
            || negb (annotationContext s));
    [split; [apply untouched_refl|now left]|].
  destruct (Num.nonzero (width box)) eqn:W;
    destruct (Num.nonzero (height box)) eqn:H; simpl;
    (split; [repeat split|]); try (now left).
  right. exists box. repeat split; assumption.
Qed.

Lemma drag_untouched : forall now down moves (s : State C),
  untouched_by_drawing s (drag now down moves s).
Proof.
  intros now down moves s. unfold drag.
  destruct (startDrawingBox_frame s now down) as [U1 _].
  destruct (moves_frame moves (startDrawingBox now down s)) as [U2 _].
  destruct (endDrawingBox_frame
              (fold_left (fun st move => updateDrawingBox move st) moves
                 (startDrawingBox now down s))) as [U3 _].
  eapply untouched_trans; [|exact U3].
  eapply untouched_trans; [exact U1|exact U2].
Qed.

End DragFrame.

(** X4: whatever the state, a whole drag touches nothing but the store and
    the drag in progress, and the store is either as before or longer by
    one box, of non-zero width and height, at its end: no stored
    annotation is changed, moved or dropped by drawing. *)
Theorem drag_only_appends :
  forall (C : Collaborators) (s : State C) (now : Z) (down : MouseEvent)
         (moves : list MouseEvent),
    untouched_by_drawing s (drag now down moves s)
    /\ (annotations (drag now down moves s) = annotations s
        \/ exists box,
             annotations (drag now down moves s) = annotations s ++ [box]
             /\ Num.nonzero (width box) = true
             /\ Num.nonzero (height box) = true).
Proof.
  intros C s now down moves. unfold drag.
  destruct (startDrawingBox_frame s now down) as [U1 A1].
  destruct (moves_frame moves (startDrawingBox now down s)) as [U2 A2].
  destruct (endDrawingBox_frame
              (fold_left (fun st move => updateDrawingBox move st) moves
                 (startDrawingBox now down s))) as [U3 A3].
  split.
  - eapply untouched_trans; [|exact U3].
    eapply untouched_trans; [exact U1|exact U2].
  - rewrite A2, A1 in A3.
    destruct A3 as [A3|(box & A3 & _ & W & H)]; [now left|].
    right. now exists box.
Qed.

(** ** The outcomes of an export *)

(** X5: a click on Download ends in exactly one of three ways: nothing at
    all when no document is loaded; one download of annotated.pdf and no
    alert; or one alert, one logged error and no download.  In each, the
    store, the selection and the drag in progress are as before. *)
Theorem export_outcomes :
  forall (C : Collaborators) (s : State C),
    annotations (addFieldsAndDownload s) = annotations s
    /\ selectedAnnotationId (addFieldsAndDownload s)
       = selectedAnnotationId s
    /\ isDrawing (addFieldsAndDownload s) = isDrawing s
    /\ currentBox (addFieldsAndDownload s) = currentBox s
    /\ ((pdfDocument s = None /\ addFieldsAndDownload s = s)
        \/ (exists pdf bytes,
              pdfDocument s = Some pdf
              /\ snd (exportBytes pdf s []) = inr bytes
              /\ downloads (addFieldsAndDownload s)
                 = downloads s ++ [("annotated.pdf", bytes)]
              /\ alerts (addFieldsAndDownload s) = alerts s
              /\ console_errors (addFieldsAndDownload s)
                 = console_errors s)
        \/ (exists pdf step,
              pdfDocument s = Some pdf
              /\ snd (exportBytes pdf s []) = inl step
              /\ downloads (addFieldsAndDownload s) = downloads s
              /\ alerts (addFieldsAndDownload s)
                 = alerts s
                   ++ ["Error creating PDF. Check console for details."]
              /\ console_errors (addFieldsAndDownload s)
                 = console_errors s ++ ["Error creating PDF:"])).
Proof.
  intros C s. unfold addFieldsAndDownload.
  destruct (pdfDocument s) as [pdf|] eqn:D.
  - destruct (snd (exportBytes pdf s [])) as [step|bytes] eqn:R.
    + repeat (split; [reflexivity|]). right. right.
      exists pdf, step. repeat split; try reflexivity; exact R.
    + repeat (split; [reflexivity|]). right. left.
      exists pdf, bytes. repeat split; try reflexivity; exact R.
  - repeat (split; [reflexivity|]). left. now split.
Qed.

(** ** Every annotation once, page after page *)

Section Batches.

Lemma group_add_boxes : forall m box,
  Permutation (List.concat (map snd (group_add m box)))
    (List.concat (map snd m) ++ [box]).
Proof.
  induction m as [|[k boxes] m IH]; intros box; simpl.
  - apply Permutation_refl.
  - destruct (k =? page box)%Z; simpl.
    + rewrite <- !app_assoc. apply Permutation_app_head.
      apply Permutation_app_comm.
    + rewrite <- app_assoc. apply Permutation_app_head. apply IH.
Qed.

Lemma groupByPage_boxes : forall l,
  Permutation (List.concat (map snd (groupByPage l))) l.
Proof.
  induction l as [|box l IH] using rev_ind.
  - apply perm_nil.
  - rewrite groupByPage_snoc.
    apply perm_trans with (List.concat (map snd (groupByPage l)) ++ [box]).
    + apply group_add_boxes.
    + now apply Permutation_app_tail.
Qed.

(** The batches hold every annotation of the store, once. *)
Lemma batches_boxes : forall l,
  Permutation (List.concat (map snd (Object_entries (groupByPage l)))) l.
Proof.
  intros l.
  apply perm_trans with (List.concat (map snd (groupByPage l))).
  - rewrite <- !flat_map_concat_map.
    apply Permutation_flat_map, Object_entries_perm.
  - apply groupByPage_boxes.
Qed.

Lemma batch_calls_length :
  forall (C : Collaborators) (s : State C) entries ts,
    Forall2 (batch_calls s) entries ts ->
    List.length (List.concat ts)
    = (2 * List.length (List.concat (map snd entries)))%nat.
Proof.
  intros C s entries ts H.
  induction H as [|entry t entries ts (d & pg & _ & Ht) _ IH]; simpl.
  - reflexivity.
  - rewrite !List.length_app, IH, Ht.
    assert (L : forall boxes,
      List.length
        (flat_map
           (box_calls (canvas_width s) (canvas_height s) (fst entry - 1)
              (getSize pg)) boxes)
      = (2 * List.length boxes)%nat).
    { induction boxes as [|b bs IHb]; simpl; [reflexivity|].
      rewrite IHb. lia. }
    rewrite L. lia.
Qed.

Lemma insert_entry_sorted : forall e l,
  StronglySorted (fun a b => (fst a <= fst b)%Z) l ->
  StronglySorted (fun a b => (fst a <= fst b)%Z) (insert_entry e l).
Proof.
  intros e l H. induction H as [|e' l Hl IH Hall]; simpl.
  - constructor; constructor.
  - destruct (Z.leb_spec (fst e) (fst e')) as [Le|Lt].
    + constructor; [now constructor|].
      constructor; [assumption|].
      eapply Forall_impl; [|exact Hall]. intros a Ha. simpl in Ha. lia.
    + constructor; [assumption|].
      apply (Permutation_Forall (Permutation_sym (insert_entry_perm e l))).
      constructor; [lia|assumption].
Qed.

Lemma sort_entries_sorted : forall l,
  StronglySorted (fun a b => (fst a <= fst b)%Z) (sort_entries l).
Proof.
  induction l as [|e l IH]; simpl.
  - constructor.
  - now apply insert_entry_sorted.
Qed.

Lemma sorted_keys_strict : forall l : list Z,
  StronglySorted Z.le l -> NoDup l -> StronglySorted Z.lt l.
Proof.
  intros l H. induction H as [|k l Hl IH Hall]; intros ND.
  - constructor.
  - inversion ND as [|? ? Hnotin ND']; subst.
    constructor; [now apply IH|].
    rewrite Forall_forall in *. intros k' Hk'.
    specialize (Hall k' Hk').
    assert (k <> k') by (intros ->; contradiction). lia.
Qed.

Lemma sorted_map_fst : forall l : PageMap,
  StronglySorted (fun a b => (fst a <= fst b)%Z) l ->
  StronglySorted Z.le (map fst l).
Proof.
  intros l H. induction H as [|e l Hl IH Hall]; simpl.
  - constructor.
  - constructor; [assumption|].
    rewrite Forall_forall in *. intros k Hk.
    apply in_map_iff in Hk as (e' & <- & He'). now apply Hall.
Qed.

End Batches.

(** X6: when no step of the export fails, each annotation of the store
    gets exactly one field: the names of the created fields are the field
    names of the stored annotations up to their order, and the calls on the
    form are two for each annotation. *)
Theorem export_places_each_once :
  forall (C : Collaborators) (s : State C) (pdf : PDFDocumentProxy)
         (bytes : Bytes),
    pdfDocument s = Some pdf ->
    snd (exportBytes pdf s []) = inr bytes ->
    Permutation (created_names (exportCalls s))
      (map fieldName (annotations s))
    /\ List.length (exportCalls s)
       = (2 * List.length (annotations s))%nat.
Proof.
  intros C s pdf bytes Hdoc Hok. split.
  - rewrite (exportCalls_names s pdf bytes Hdoc Hok).
    apply Permutation_map, batches_boxes.
  - destruct (exportCalls_batches s pdf bytes Hdoc Hok) as (ts & -> & HR).
    rewrite (batch_calls_length C s _ _ HR). f_equal.
    apply Permutation_length, batches_boxes.
Qed.

Lemma export_places_each_once_witness :
  Permutation
    (created_names
       (exportCalls
          (Sample.editor [Sample.box3; Sample.unnamed; Sample.named] None)))
    (map fieldName [Sample.box3; Sample.unnamed; Sample.named])
  /\ List.length
       (exportCalls
          (Sample.editor [Sample.box3; Sample.unnamed; Sample.named] None))
     = 6%nat.
Proof.
  apply (export_places_each_once Sample.pdf
           (Sample.editor [Sample.box3; Sample.unnamed; Sample.named] None)
           [(num 600, num 800); (num 600, num 800); (num 600, num 800)]
           (Sample.mkDoc
              [(num 600, num 800); (num 600, num 800); (num 600, num 800)]
              ["Field_12345"; "Name"; "sig"]
              [("Field_12345", 0,
                fieldOptions Sample.unnamed (num 900) (num 1200)
                  (num 600) (num 800));
               ("Name", 1,
                fieldOptions Sample.named (num 900) (num 1200)
                  (num 600) (num 800));
               ("sig", 2,
                fieldOptions Sample.box3 (num 900) (num 1200)
                  (num 600) (num 800))])
           eq_refl).
  vm_compute. reflexivity.
Defined.

(** X7: when the page numbers of the store are array indices (from 0 to
    2^32 - 2, as the page numbers of a document are), the export goes
    through the pages in strictly ascending order of page number, whatever
    the order in which the pages were annotated. *)
Theorem export_pages_ascending :
  forall l : list AnnotationBox,
    (forall box, In box l -> (0 <= page box < 2 ^ 32 - 1)%Z) ->
    StronglySorted Z.lt (map fst (Object_entries (groupByPage l))).
Proof.
  intros l Hpages.
  apply sorted_keys_strict; [|apply batches_spec].
  unfold Object_entries.
  assert (Hidx : forall e, In e (groupByPage l) ->
                           is_array_index (fst e) = true).
  { intros e He. apply (in_map fst) in He.
    apply keys_groupByPage in He as (box & Hbox & <-).
    specialize (Hpages box Hbox). unfold is_array_index.
    apply andb_true_intro. split; [apply Z.leb_le|apply Z.ltb_lt]; lia. }
  rewrite (filter_all _ _ _ Hidx).
  replace (filter (fun e => negb (is_array_index (fst e))) (groupByPage l))
    with (@nil (Z * list AnnotationBox)).
  - rewrite app_nil_r. apply sorted_map_fst, sort_entries_sorted.
  - symmetry. induction (groupByPage l) as [|e m IH]; simpl; [reflexivity|].
    rewrite (Hidx e) by now left. simpl. apply IH.
    intros e' He'. apply Hidx. now right.
Qed.

Lemma export_pages_ascending_witness :
  StronglySorted Z.lt
    (map fst
       (Object_entries
          (groupByPage [Sample.box3; Sample.named; Sample.box1]))).
Proof.
  apply (export_pages_ascending [Sample.box3; Sample.named; Sample.box1]).
  intros box [<-|[<-|[<-|[]]]]; vm_compute; split; congruence.
Defined.

(** ** Exports that cannot go through, and the empty export *)

Section Failing.

Context `{C : Collaborators}.

Variable lacking : PDFDoc -> Prop.

Hypothesis lacking_created : forall pdfDoc n created,
  lacking pdfDoc -> createTextField pdfDoc n = Some created ->
  lacking (fst created).

Hypothesis lacking_placed : forall pdfDoc field pdfPage options pdfDoc',
  lacking pdfDoc ->
  addToPage pdfDoc field pdfPage options = Some pdfDoc' ->
  lacking pdfDoc'.

Lemma for_of_lacking :
  forall (A : Type) (l : list A) (body : PDFDoc -> A -> Export PDFDoc),
    (forall st a log st',
        lacking st -> snd (body st a log) = inr st' -> lacking st') ->
    forall st log st',
      lacking st -> snd (for_of l body st log) = inr st' -> lacking st'.
Proof.
  intros A l body Hbody. induction l as [|a l IH]; intros st log st' Hst.
  - simpl. intros H. injection H as <-. assumption.
  - simpl. unfold bind.
    destruct (body st a log) as [log' [step|st1]] eqn:B; simpl;
      [discriminate|].
    apply IH. apply (Hbody st a log); [assumption|now rewrite B].
Qed.

Lemma placeField_lacking :
  forall pageIndex pdfPage cw ch pw ph pdfDoc box log pdfDoc',
    lacking pdfDoc ->
    snd (placeField pageIndex pdfPage cw ch pw ph pdfDoc box log)
    = inr pdfDoc' ->
    lacking pdfDoc'.
Proof.
  intros pageIndex pdfPage cw ch pw ph pdfDoc box log pdfDoc' Hl.
  rewrite placeField_result.
  destruct (createTextField pdfDoc (fieldName box)) as [created|] eqn:K;
    [|discriminate].
  destruct (addToPage (fst created) (snd created) pdfPage _) eqn:P;
    [|discriminate].
  intros H. injection H as <-.
  apply (lacking_placed _ _ _ _ _ (lacking_created _ _ _ Hl K) P).
Qed.

Lemma placePage_lacking : forall cw ch pdfDoc entry log pdfDoc',
  lacking pdfDoc ->
  snd (placePage cw ch pdfDoc entry log) = inr pdfDoc' ->
  lacking pdfDoc'.
Proof.
  intros cw ch pdfDoc entry log pdfDoc' Hl.
  unfold placePage, bind, attempt.
  destruct (getPage pdfDoc (fst entry - 1)) as [pdfPage|]; simpl;
    [|discriminate].
  apply for_of_lacking; [|assumption].
  intros st box log0 st'. apply placeField_lacking.
Qed.

Lemma for_of_fails :
  forall (A : Type) (l : list A) (body : PDFDoc -> A -> Export PDFDoc)
         (a : A),
    In a l ->
    (forall st log,
        lacking st -> exists step, snd (body st a log) = inl step) ->
    (forall st a' log st',
        lacking st -> snd (body st a' log) = inr st' -> lacking st') ->
    forall st log,
      lacking st -> exists step, snd (for_of l body st log) = inl step.
Proof.
  intros A l body a Hin Hfail Hkeep.
  induction l as [|a0 l IH]; intros st log Hst; [destruct Hin|].
  simpl. unfold bind.
  destruct (body st a0 log) as [log' [step|st']] eqn:B; simpl.
  - now exists step.
  - assert (Hst' : lacking st')
      by (apply (Hkeep st a0 log); [assumption|now rewrite B]).
    destruct Hin as [->|Hin].
    + destruct (Hfail st log Hst) as (step & Hstep).
      rewrite B in Hstep. discriminate.
    + now apply IH.
Qed.

Lemma export_of_missing_page_fails : forall (s : State C) pdf box,
  In box (annotations s) ->
  (forall pdfBytes pdfDoc,
      getData pdf = Some pdfBytes ->
      PDFDocument_load pdfBytes = Some pdfDoc -> lacking pdfDoc) ->
  (forall pdfDoc, lacking pdfDoc -> getPage pdfDoc (page box - 1) = None) ->
  exists step, snd (exportBytes pdf s []) = inl step.
Proof.
  intros s pdf box Hbox Hloaded Hmissing.
  apply export_fails_iff.
  destruct (getData pdf) as [pdfBytes|] eqn:G; [right|now left].
  exists pdfBytes. split; [reflexivity|].
  destruct (PDFDocument_load pdfBytes) as [pdfDoc|] eqn:L;
    [right|now left].
  exists pdfDoc. split; [reflexivity|]. left.
  destruct (batches_spec (annotations s)) as (_ & Hkeys & _).
  assert (Hk : In (page box)
                 (map fst (Object_entries (groupByPage (annotations s)))))
    by (apply Hkeys; now exists box).
  apply in_map_iff in Hk as (entry & Hk & Hentry).
  apply (for_of_fails _ _ _ entry Hentry).
  - intros st log Hst. exists StepGetPage.
    unfold placePage, bind, attempt.
    rewrite Hk, (Hmissing st Hst). reflexivity.
  - intros st a' log st'. apply placePage_lacking.
  - exact (Hloaded pdfBytes pdfDoc eq_refl L).
Qed.

End Failing.

(** X8: with page numbers below 10^21, which read back from their keys
    as they are: when one annotation of the store is on a page that the
    document loaded for the export lacks, and goes on lacking while fields
    are created and placed, the export fails as a whole, whatever the
    other annotations are: one alert, no download. *)
Theorem export_fails_on_missing_page :
  forall (C : Collaborators) (s : State C) (pdf : PDFDocumentProxy)
         (box : AnnotationBox) (lacking : PDFDoc -> Prop),
    pdfDocument s = Some pdf ->
    (forall b, In b (annotations s) -> prints_in_decimal (page b)) ->
    In box (annotations s) ->
    (forall pdfBytes pdfDoc,
        getData pdf = Some pdfBytes ->
        PDFDocument_load pdfBytes = Some pdfDoc -> lacking pdfDoc) ->
    (forall pdfDoc n created,
        lacking pdfDoc -> createTextField pdfDoc n = Some created ->
        lacking (fst created)) ->
    (forall pdfDoc field pdfPage options pdfDoc',
        lacking pdfDoc ->
        addToPage pdfDoc field pdfPage options = Some pdfDoc' ->
        lacking pdfDoc') ->
    (forall pdfDoc,
        lacking pdfDoc -> getPage pdfDoc (page box - 1) = None) ->
    downloads (addFieldsAndDownload s) = downloads s
    /\ alerts (addFieldsAndDownload s)
       = alerts s ++ ["Error creating PDF. Check console for details."].
Proof.
  intros C s pdf box lacking Hdoc _ Hbox Hloaded Hcreated Hplaced
         Hmissing.
  destruct (export_of_missing_page_fails lacking Hcreated Hplaced
              s pdf box Hbox Hloaded Hmissing) as (step & Hstep).
  rewrite (export_failure s pdf step Hdoc Hstep). split; reflexivity.
Qed.

(** A box on page 7 of a document of three pages. *)
Lemma export_fails_on_missing_page_witness :
  downloads
    (addFieldsAndDownload
       (Sample.editor
          [Sample.box1;
           mkBox 4 (num 10) (num 10) 7 (num 20) (num 20) ""] None)) = []
  /\ alerts
       (addFieldsAndDownload
          (Sample.editor
             [Sample.box1;
              mkBox 4 (num 10) (num 10) 7 (num 20) (num 20) ""] None))
     = ["Error creating PDF. Check console for details."].
Proof.
  apply (export_fails_on_missing_page Sample.pdf
           (Sample.editor
              [Sample.box1;
               mkBox 4 (num 10) (num 10) 7 (num 20) (num 20) ""] None)
           [(num 600, num 800); (num 600, num 800); (num 600, num 800)]
           (mkBox 4 (num 10) (num 10) 7 (num 20) (num 20) "")
           (fun d => List.length (Sample.pages d) <= 3)%nat
           eq_refl).
  - intros b [<-|[<-|[]]]; vm_compute; reflexivity.
  - right. left. reflexivity.
  - intros pdfBytes pdfDoc G L. injection G as <-. injection L as <-.
    apply le_n.
  - intros pdfDoc n created Hl H. unfold createTextField in H. simpl in H.
    unfold Sample.create_field in H.
    destruct (existsb (String.eqb n) (Sample.names pdfDoc));
      [discriminate|]. injection H as <-. exact Hl.
  - intros pdfDoc field pdfPage options pdfDoc' Hl H.
    injection H as <-. exact Hl.
  - intros pdfDoc Hl.
    change (Sample.page_at pdfDoc 6 = None). unfold Sample.page_at.
    change (6 <? 0)%Z with false. cbv iota.
    replace (nth_error (Sample.pages pdfDoc) (Z.to_nat 6)) with
      (@None (number * number)); [reflexivity|].
    symmetry. apply nth_error_None.
    apply (Nat.le_trans _ 3 _ Hl). vm_compute. repeat constructor.
Defined.

(** X9: with a document loaded and an empty store, the export makes no
    call on the form, and when the bytes are read, loaded and saved it
    downloads the saved bytes of the document as it was loaded. *)
Theorem export_of_empty_store :
  forall (C : Collaborators) (s : State C) (pdf : PDFDocumentProxy)
         (pdfBytes bytes : Bytes) (pdfDoc : PDFDoc),
    pdfDocument s = Some pdf ->
    annotations s = [] ->
    exportCalls s = []
    /\ (getData pdf = Some pdfBytes ->
        PDFDocument_load pdfBytes = Some pdfDoc ->
        save pdfDoc = Some bytes ->
        downloads (addFieldsAndDownload s)
        = downloads s ++ [("annotated.pdf", bytes)]
        /\ alerts (addFieldsAndDownload s) = alerts s).
Proof.
  intros C s pdf pdfBytes bytes pdfDoc Hdoc Hempty. split.
  - unfold exportCalls. rewrite Hdoc, exportBytes_calls, Hempty.
    destruct (getData pdf) as [b|]; [|reflexivity].
    now destruct (PDFDocument_load b).
  - intros Hdata Hload Hsave.
    rewrite (export_success s pdf bytes Hdoc); [split; reflexivity|].
    unfold exportBytes, bind, attempt.
    rewrite Hdata. simpl. rewrite Hload, Hempty. simpl. now rewrite Hsave.
Qed.

Lemma export_of_empty_store_witness :
  exportCalls (Sample.editor [] None) = []
  /\ downloads (addFieldsAndDownload (Sample.editor [] None))
     = [("annotated.pdf",
         Sample.mkDoc
           [(num 600, num 800); (num 600, num 800); (num 600, num 800)]
           [] [])].
Proof.
  destruct (export_of_empty_store Sample.pdf (Sample.editor [] None)
              [(num 600, num 800); (num 600, num 800); (num 600, num 800)]
              (Sample.mkDoc
                 [(num 600, num 800); (num 600, num 800);
                  (num 600, num 800)] [] [])
              (Sample.mkDoc
                 [(num 600, num 800); (num 600, num 800);
                  (num 600, num 800)] [] [])
              (Sample.mkDoc
                 [(num 600, num 800); (num 600, num 800);
                  (num 600, num 800)] [] [])
              eq_refl eq_refl) as [Hcalls Hdown].
  split; [exact Hcalls|].
  exact (proj1 (Hdown eq_refl eq_refl eq_refl)).
Defined.

(** ** Names *)

Lemma to_int_printable : forall z : Z,
  NilZero.int_of_string (NilZero.string_of_int (Z.to_int z))
  = Some (Z.to_int z).
Proof.
  intros z. apply NilZero.isi; destruct z as [|p|p]; simpl;
    try discriminate; intros H; injection H as H;
    now apply DecimalPos.Unsigned.to_uint_nonnil in H.
Qed.

Lemma toString_inj : forall a b : Z, toString a = toString b -> a = b.
Proof.
  intros a b H. unfold toString in H.
  apply (f_equal NilZero.int_of_string) in H.
  rewrite !to_int_printable in H. injection H as H.
  now apply DecimalZ.to_int_inj.
Qed.

(** X10: the generated field names tell the ids apart: two annotations
    without a name and of different ids get different field names. *)
Theorem generated_names_tell_ids_apart :
  forall b1 b2 : AnnotationBox,
    name b1 = "" -> name b2 = "" ->
    id b1 <> id b2 -> fieldName b1 <> fieldName b2.
Proof.
  intros b1 b2 H1 H2 Hid. unfold fieldName. rewrite H1, H2. simpl.
  intros H. injection H as H. now apply toString_inj in H.
Qed.

Lemma generated_names_tell_ids_apart_witness :
  fieldName Sample.box1 <> fieldName Sample.unnamed.
Proof.
  apply (generated_names_tell_ids_apart Sample.box1 Sample.unnamed);
    [reflexivity|reflexivity|discriminate].
Defined.

(** X11: after a rename through the list item, an export that goes through
    creates, for a box of the renamed id, a field under the new name, or
    under Field_ and the id when the new name is empty. *)
Theorem renamed_box_exports_under_new_name :
  forall (C : Collaborators) (s : State C) (i : Z) (n : string)
         (pdf : PDFDocumentProxy) (bytes : Bytes),
    (exists box, In box (annotations s) /\ id box = i) ->
    pdfDocument s = Some pdf ->
    snd (exportBytes pdf (editAnnotation i n s) []) = inr bytes ->
    In (CreateTextField
          (if String.eqb n "" then ("Field_" ++ toString i)%string else n))
       (exportCalls (editAnnotation i n s)).
Proof.
  intros C s i n pdf bytes (box & Hbox & Hid) Hdoc Hok.
  destruct (exportCalls_complete (editAnnotation i n s) pdf bytes
              (set_name box n) Hdoc Hok) as (_ & _ & _ & Hcreate & _).
  - unfold editAnnotation. simpl. apply in_map_iff.
    exists box. split; [|assumption].
    now rewrite Hid, Z.eqb_refl.
  - unfold fieldName in Hcreate. simpl in Hcreate. now rewrite Hid in Hcreate.
Qed.

Lemma renamed_box_exports_under_new_name_witness :
  In (CreateTextField "total")
     (exportCalls
        (editAnnotation 2 "total"
           (Sample.editor [Sample.box1; Sample.box2] None))).
Proof.
  apply (renamed_box_exports_under_new_name Sample.pdf
           (Sample.editor [Sample.box1; Sample.box2] None) 2 "total"
           [(num 600, num 800); (num 600, num 800); (num 600, num 800)]
           (Sample.mkDoc
              [(num 600, num 800); (num 600, num 800); (num 600, num 800)]
              ["Field_1"; "total"]
              [("Field_1", 0,
                fieldOptions Sample.box1 (num 900) (num 1200)
                  (num 600) (num 800));
               ("total", 0,
                fieldOptions Sample.box2 (num 900) (num 1200)
                  (num 600) (num 800))])).
  - exists Sample.box2. split; [right; left|]; reflexivity.
  - reflexivity.
  - vm_compute. reflexivity.
Defined.

(** * The component as a whole *)

Section Preservation.

Context `{R : Renderer}.

(** A step that leaves the drag, the contexts, the document and the store
    as they are leaves them sound. *)
Lemma sound_stores_same : forall s s' : State C,
  isDrawing s' = isDrawing s -> currentBox s' = currentBox s ->
  pdfContext s' = pdfContext s ->
  annotationContext s' = annotationContext s ->
  drawingContext s' = drawingContext s ->
  pdfDocument s' = pdfDocument s -> annotations s' = annotations s ->
  sound_stores s -> sound_stores s'.
Proof.
  unfold sound_stores. intros s s' E1 E2 E3 E4 E5 E6 E7.
  rewrite E1, E2, E3, E4, E5, E6, E7. exact (fun H => H).
Qed.

Lemma sound_startDrawingBox : forall (s : State C) now event,
  sound_stores s -> sound_stores (startDrawingBox now event s).
Proof.
  intros s now event H. unfold startDrawingBox.
  destruct (negb (drawingContext s) || negb (pdfContext s));
    [assumption|].
  destruct H as (_ & H). split; [reflexivity|exact H].
Qed.

Lemma sound_updateDrawingBox : forall (s : State C) event,
  sound_stores s -> sound_stores (updateDrawingBox event s).
Proof.
  intros s event H. unfold updateDrawingBox.
  destruct (negb (isDrawing s) || negb (drawingContext s)
            || negb (pdfContext s)); [assumption|].
  destruct (currentBox s) as [box|] eqn:B; [|assumption].
  destruct H as (H1 & H). rewrite B in H1.
  split; [exact H1|exact H].
Qed.

Lemma sound_endDrawingBox : forall s : State C,
  sound_stores s -> sound_stores (endDrawingBox s).
Proof.
  intros s H. unfold endDrawingBox.
  destruct (isDrawing s); [|assumption].
  destruct (currentBox s) as [box|]; [|assumption].
  destruct (negb (pdfContext s) || negb (drawingContext s)
            || negb (annotationContext s)) eqn:G; [assumption|].
  apply orb_false_elim in G as [G _]. apply orb_false_elim in G as [_ G].
  apply negb_false_iff in G.
  destruct H as (_ & H2 & H3 & H4 & H5 & H6).
  destruct (Num.nonzero (width box) && Num.nonzero (height box)) eqn:N;
    simpl.
  - repeat split; try assumption.
    + intros _. now apply H4.
    + apply Forall_app. split; [assumption|]. now constructor.
  - repeat split; assumption.
Qed.

Lemma sound_trackCoordinates : forall (s : State C) w h event,
  sound_stores s -> sound_stores (trackCoordinates w h event s).
Proof. intros s w h event. now apply sound_stores_same. Qed.

Lemma sound_resetCoordinates : forall s : State C,
  sound_stores s -> sound_stores (resetCoordinates s).
Proof. intros s. now apply sound_stores_same. Qed.

Lemma sound_handleKeyboardBoxControl : forall (s : State C) event,
  sound_stores s -> sound_stores (handleKeyboardBoxControl event s).
Proof.
  intros s event H. unfold handleKeyboardBoxControl.
  destruct (negb (truthy_id (selectedAnnotationId s))
            || negb (pdfContext s) || negb (drawingContext s));
    [assumption|].
  destruct (find _ (annotations s)); [|assumption].
  destruct H as (H1 & H2 & H3 & H4 & H5 & H6).
  repeat split; try assumption; simpl.
  - intros Hne. apply H5. intros E. rewrite E in Hne. now apply Hne.
  - apply Forall_map. eapply Forall_impl; [|exact H6].
    intros b Hb. simpl.
    destruct (is_selected (selectedAnnotationId s) b); [|assumption].
    destruct (nudge_keeps event
                (if shiftKey event then num 10 else num 1) b)
      as (_ & _ & -> & -> & _).
    assumption.
Qed.

Lemma sound_editAnnotation : forall (s : State C) i n,
  sound_stores s -> sound_stores (editAnnotation i n s).
Proof.
  intros s i n (H1 & H2 & H3 & H4 & H5 & H6).
  unfold editAnnotation. repeat split; try assumption; simpl.
  - intros Hne. apply H5. intros E. rewrite E in Hne. now apply Hne.
  - apply Forall_map. eapply Forall_impl; [|exact H6].
    intros b Hb. simpl. now destruct (id b =? i)%Z.
Qed.

Lemma sound_removeAnnotation : forall (s : State C) i,
  sound_stores s -> sound_stores (removeAnnotation i s).
Proof.
  intros s i (H1 & H2 & H3 & H4 & H5 & H6).
  unfold removeAnnotation. repeat split; try assumption; simpl.
  - intros Hne. apply H5. intros E. rewrite E in Hne. now apply Hne.
  - rewrite Forall_forall in *. intros b Hb.
    apply filter_In in Hb as [Hb _]. now apply H6.
Qed.

Lemma sound_addFieldsAndDownload : forall s : State C,
  sound_stores s -> sound_stores (addFieldsAndDownload s).
Proof.
  intros s. unfold addFieldsAndDownload.
  destruct (pdfDocument s) as [pdf|]; [|exact (fun H => H)].
  destruct (snd (exportBytes pdf s [])); now apply sound_stores_same.
Qed.

Lemma sound_fold : forall (A : Type) (f : State C -> A -> State C) l,
  (forall s a, sound_stores s -> sound_stores (f s a)) ->
  forall s, sound_stores s -> sound_stores (fold_left f l s).
Proof.
  intros A f l Hf. induction l as [|a l IH]; intros s H; simpl.
  - assumption.
  - apply IH. now apply Hf.
Qed.

Lemma consistent_with_stores : forall (a : App R) (s : State C),
  consistent a -> sound_stores s -> consistent (with_stores a s).
Proof.
  intros a s (_ & HL) Hs. split; assumption.
Qed.

Lemma consistent_renderPage : forall (a : App R) n,
  consistent a -> consistent (renderPage n a).
Proof.
  intros a n H. unfold renderPage.
  destruct (pdfDocument (stores a)) as [pdf|] eqn:D; [|assumption].
  destruct (proxy_getPage pdf n) as [pg|]; [|assumption].
  destruct H as ((H1 & H2 & H3 & H4 & H5 & H6) & HL).
  destruct (negb pdfCanvas_2d || negb drawingCanvas_2d
            || negb annotationCanvas_2d).
  - split; [|exact HL].
    repeat split; simpl; try assumption; try reflexivity;
      try discriminate.
  - destruct (render pg).
    + split.
      * repeat split; simpl; try assumption; try reflexivity;
          try (intros _; rewrite D; discriminate).
      * simpl. split; [|reflexivity].
        intros _ E. now apply app_eq_nil in E as [_ E].
    + split; [|exact HL].
      repeat split; simpl; try assumption; try reflexivity;
        try (intros _; rewrite D; discriminate).
Qed.

Lemma consistent_loadPdf : forall (a : App R) data,
  consistent a -> consistent (loadPdf data a).
Proof.
  intros a data H. unfold loadPdf.
  destruct (getDocument data) as [pdf|]; [|assumption].
  apply consistent_renderPage.
  destruct H as ((H1 & H2 & H3 & H4 & H5 & H6) & HL).
  split; [|exact HL].
  repeat split; simpl; try assumption; try discriminate.
Qed.

Lemma consistent_step : forall (a : App R) e,
  consistent a -> consistent (step a e).
Proof.
  intros a e H. pose proof H as (Hs & HL).
  destruct e as [now event|event l t| | |event|i|i n|i| |v|file]; simpl.
  - unfold mousedown. destruct (drawing_listeners a); [|assumption].
    apply consistent_with_stores; [assumption|].
    now apply sound_startDrawingBox.
  - unfold mousemove. destruct (drawing_listeners a); [|assumption].
    apply consistent_with_stores; [assumption|].
    apply sound_fold.
    + intros s0 size. apply sound_trackCoordinates.
    + now apply sound_updateDrawingBox.
  - unfold mouseup. destruct (drawing_listeners a); [|assumption].
    apply consistent_with_stores; [assumption|].
    now apply sound_endDrawingBox.
  - unfold mouseout. destruct (drawing_listeners a); [|assumption].
    apply consistent_with_stores; [assumption|].
    apply sound_fold.
    + intros s0 _. apply sound_resetCoordinates.
    + now apply sound_endDrawingBox.
  - apply consistent_with_stores; [assumption|].
    now apply sound_handleKeyboardBoxControl.
  - apply consistent_with_stores; [assumption|].
    revert Hs. now apply sound_stores_same.
  - apply consistent_with_stores; [assumption|].
    now apply sound_editAnnotation.
  - apply consistent_with_stores; [assumption|].
    now apply sound_removeAnnotation.
  - apply consistent_with_stores; [assumption|].
    now apply sound_addFieldsAndDownload.
  - unfold pageInput, onPageChange.
    assert (H' : consistent
                   (with_stores a (set_currentPage (stores a) v))).
    { apply consistent_with_stores; [assumption|].
      revert Hs. now apply sound_stores_same. }
    simpl. destruct (pdfDocument (stores a)); [|assumption].
    destruct ((1 <=? v)%Z && (v <=? numPages a)%Z); [|assumption].
    now apply consistent_renderPage.
  - unfold onFileChange.
    assert (H' : consistent
                   (with_stores a
                      (show_alert (stores a)
                         "Please upload a valid PDF file."))).
    { apply consistent_with_stores; [assumption|].
      revert Hs. now apply sound_stores_same. }
    destruct file as [f|]; [|assumption].
    destruct (String.eqb (file_type f) "application/pdf"); [|assumption].
    now apply consistent_loadPdf.
Qed.

Lemma consistent_run : forall events (a : App R),
  consistent a -> consistent (run events a).
Proof.
  induction events as [|e events IH]; intros a H; simpl.
  - assumption.
  - apply IH. now apply consistent_step.
Qed.

Lemma consistent_initial : consistent (initial (R := R)).
Proof.
  repeat split; simpl; try discriminate; try congruence;
    try constructor.
Qed.

End Preservation.

(** X14: whatever events the mounted component has gone through, a drag
    is in progress exactly when there is a box in progress, the three
    contexts are there or missing together and there only with a document
    loaded, annotations are stored only with a document loaded, no stored
    annotation has a width or a height of zero, and the drawing handlers
    listen exactly when a read-out listener does. *)
Theorem consistent_always :
  forall (C : Collaborators) (R : Renderer) (events : list Event),
    consistent (run events initial).
Proof.
  intros C R events. apply consistent_run, consistent_initial.
Qed.

(** ** The ids of the store *)

Section Ids.

Context `{R : Renderer}.

Lemma ids_same : forall (s s' : State C) T,
  annotations s' = annotations s -> currentBox s' = currentBox s ->
  ids_ordered T s -> ids_ordered T s'.
Proof.
  unfold ids_ordered. intros s s' T E1 E2. rewrite E1, E2.
  exact (fun H => H).
Qed.

Lemma ids_later : forall (s : State C) T T',
  (T <= T')%Z -> ids_ordered T s -> ids_ordered T' s.
Proof.
  intros s T T' Hle (H1 & H2 & H3). split; [assumption|]. split.
  - eapply Forall_impl; [|exact H2]. intros i Hi. simpl in Hi. lia.
  - intros box Hbox. destruct (H3 box Hbox) as [Hid Hall].
    split; [lia|assumption].
Qed.

Lemma sorted_snoc : forall (l : list Z) (k : Z),
  StronglySorted Z.lt l -> Forall (fun i => (i < k)%Z) l ->
  StronglySorted Z.lt (l ++ [k]).
Proof.
  intros l k H. induction H as [|i l Hl IH Hall]; intros Hk; simpl.
  - constructor; constructor.
  - inversion Hk as [|? ? Hik Hk']; subst.
    constructor; [now apply IH|].
    apply Forall_app. split; [assumption|]. now constructor.
Qed.

Lemma sorted_filter : forall (f : Z -> bool) (l : list Z),
  StronglySorted Z.lt l -> StronglySorted Z.lt (filter f l).
Proof.
  intros f l H. induction H as [|i l Hl IH Hall]; simpl.
  - constructor.
  - destruct (f i); [|assumption].
    constructor; [assumption|].
    rewrite Forall_forall in *. intros k Hk.
    apply filter_In in Hk as [Hk _]. now apply Hall.
Qed.

Lemma ids_filter : forall (i : Z) (l : list AnnotationBox),
  map id (filter (fun box => negb (id box =? i)%Z) l)
  = filter (fun k => negb (k =? i)%Z) (map id l).
Proof.
  intros i l. induction l as [|b l IH]; simpl; [reflexivity|].
  destruct (negb (id b =? i)%Z); simpl; now rewrite IH.
Qed.

Lemma Forall_filter_keep : forall (P : Z -> Prop) (f : Z -> bool) l,
  Forall P l -> Forall P (filter f l).
Proof.
  intros P f l H. rewrite Forall_forall in *. intros k Hk.
  apply filter_In in Hk as [Hk _]. now apply H.
Qed.

Lemma ids_startDrawingBox : forall (s : State C) T now event,
  (T < now)%Z -> ids_ordered T s ->
  ids_ordered now (startDrawingBox now event s).
Proof.
  intros s T now event Hlt H. unfold startDrawingBox.
  destruct (negb (drawingContext s) || negb (pdfContext s)).
  - apply (ids_later s T now); [lia|assumption].
  - destruct H as (H1 & H2 & _). split; [exact H1|]. split; simpl.
    + eapply Forall_impl; [|exact H2]. intros i Hi. simpl in Hi. lia.
    + intros box Hbox. injection Hbox as <-. simpl. split; [lia|].
      eapply Forall_impl; [|exact H2]. intros i Hi. simpl in Hi. lia.
Qed.

Lemma ids_updateDrawingBox : forall (s : State C) T event,
  ids_ordered T s -> ids_ordered T (updateDrawingBox event s).
Proof.
  intros s T event H. unfold updateDrawingBox.
  destruct (negb (isDrawing s) || negb (drawingContext s)
            || negb (pdfContext s)); [assumption|].
  destruct (currentBox s) as [box|] eqn:B; [|assumption].
  destruct H as (H1 & H2 & H3). split; [exact H1|]. split; [exact H2|].
  simpl. intros box' Hbox'. injection Hbox' as <-. simpl.
  now apply H3.
Qed.

Lemma ids_endDrawingBox : forall (s : State C) T,
  ids_ordered T s -> ids_ordered T (endDrawingBox s).
Proof.
  intros s T H. unfold endDrawingBox.
  destruct (isDrawing s); [|assumption].
  destruct (currentBox s) as [box|] eqn:B; [|assumption].
  destruct (negb (pdfContext s) || negb (drawingContext s)
            || negb (annotationContext s)); [assumption|].
  destruct H as (H1 & H2 & H3). destruct (H3 box B) as [Hid Hall].
  destruct (Num.nonzero (width box) && Num.nonzero (height box)); simpl.
  - split; [|split]; simpl.
    + rewrite map_app. simpl. now apply sorted_snoc.
    + rewrite map_app. apply Forall_app. split; [assumption|].
      now constructor.
    + discriminate.
  - split; [exact H1|]. split; [exact H2|]. discriminate.
Qed.

Lemma ids_handleKeyboardBoxControl : forall (s : State C) T event,
  ids_ordered T s -> ids_ordered T (handleKeyboardBoxControl event s).
Proof.
  intros s T event H. unfold handleKeyboardBoxControl.
  destruct (negb (truthy_id (selectedAnnotationId s))
            || negb (pdfContext s) || negb (drawingContext s));
    [assumption|].
  destruct (find _ (annotations s)); [|assumption].
  unfold ids_ordered in *. simpl.
  replace (map id (map _ (annotations s))) with (map id (annotations s));
    [assumption|].
  rewrite map_map. apply map_ext. intros b.
  destruct (is_selected (selectedAnnotationId s) b); [|reflexivity].
  symmetry. apply nudge_keeps.
Qed.

Lemma ids_editAnnotation : forall (s : State C) T i n,
  ids_ordered T s -> ids_ordered T (editAnnotation i n s).
Proof.
  intros s T i n H. unfold editAnnotation, ids_ordered in *. simpl.
  replace (map id (map _ (annotations s))) with (map id (annotations s));
    [assumption|].
  rewrite map_map. apply map_ext. intros b. now destruct (id b =? i)%Z.
Qed.

Lemma ids_removeAnnotation : forall (s : State C) T i,
  ids_ordered T s -> ids_ordered T (removeAnnotation i s).
Proof.
  intros s T i (H1 & H2 & H3).
  unfold removeAnnotation, ids_ordered. simpl. rewrite ids_filter.
  split; [now apply sorted_filter|].
  split; [now apply Forall_filter_keep|].
  intros box Hbox. destruct (H3 box Hbox) as [Hid Hall].
  split; [assumption|now apply Forall_filter_keep].
Qed.

Lemma ids_addFieldsAndDownload : forall (s : State C) T,
  ids_ordered T s -> ids_ordered T (addFieldsAndDownload s).
Proof.
  intros s T. unfold addFieldsAndDownload.
  destruct (pdfDocument s) as [pdf|]; [|exact (fun H => H)].
  destruct (snd (exportBytes pdf s [])); now apply ids_same.
Qed.

Lemma ids_fold : forall (A : Type) (f : State C -> A -> State C) l T,
  (forall s a, ids_ordered T s -> ids_ordered T (f s a)) ->
  forall s, ids_ordered T s -> ids_ordered T (fold_left f l s).
Proof.
  intros A f l T Hf. induction l as [|a l IH]; intros s H; simpl.
  - assumption.
  - apply IH. now apply Hf.
Qed.

Lemma ids_renderPage : forall (a : App R) T n,
  ids_ordered T (stores a) -> ids_ordered T (stores (renderPage n a)).
Proof.
  intros a T n H. unfold renderPage.
  destruct (pdfDocument (stores a)) as [pdf|]; [|assumption].
  destruct (proxy_getPage pdf n) as [pg|]; [|assumption].
  destruct (negb pdfCanvas_2d || negb drawingCanvas_2d
            || negb annotationCanvas_2d); [revert H; now apply ids_same|].
  destruct (render pg); revert H; now apply ids_same.
Qed.

(** A step other than a mousedown keeps the bound; a mousedown later than
    the bound makes its time the bound. *)
Lemma ids_step : forall (a : App R) T e,
  ids_ordered T (stores a) ->
  (forall now event, e = MouseDown now event -> (T < now)%Z) ->
  ids_ordered (match e with MouseDown now _ => now | _ => T end)
    (stores (step a e)).
Proof.
  intros a T e H Hnow.
  destruct e as [now event|event l t| | |event|i|i n|i| |v|file]; simpl.
  - unfold mousedown. destruct (drawing_listeners a); simpl.
    + apply (ids_startDrawingBox _ T); [now apply (Hnow now event)|].
      assumption.
    + apply (ids_later _ T); [|assumption].
      specialize (Hnow now event eq_refl). lia.
  - unfold mousemove. destruct (drawing_listeners a); [|assumption].
    simpl. apply ids_fold.
    + intros s0 size. now apply ids_same.
    + now apply ids_updateDrawingBox.
  - unfold mouseup. destruct (drawing_listeners a); [|assumption].
    simpl. now apply ids_endDrawingBox.
  - unfold mouseout. destruct (drawing_listeners a); [|assumption].
    simpl. apply ids_fold.
    + intros s0 _. now apply ids_same.
    + now apply ids_endDrawingBox.
  - now apply ids_handleKeyboardBoxControl.
  - revert H. now apply ids_same.
  - now apply ids_editAnnotation.
  - now apply ids_removeAnnotation.
  - now apply ids_addFieldsAndDownload.
  - unfold pageInput, onPageChange. simpl.
    destruct (pdfDocument (stores a)); [|revert H; now apply ids_same].
    destruct ((1 <=? v)%Z && (v <=? numPages a)%Z);
      [|revert H; now apply ids_same].
    apply ids_renderPage. revert H. now apply ids_same.
  - unfold onFileChange.
    destruct file as [f|]; [|revert H; now apply ids_same].
    destruct (String.eqb (file_type f) "application/pdf");
      [|revert H; now apply ids_same].
    unfold loadPdf. destruct (getDocument (file_data f)); [|assumption].
    apply ids_renderPage. revert H. now apply ids_same.
Qed.

Lemma ids_run : forall events (a : App R) T,
  ids_ordered T (stores a) ->
  StronglySorted Z.lt (T :: timestamps events) ->
  exists T', ids_ordered T' (stores (run events a)).
Proof.
  induction events as [|e events IH]; intros a T H Hsorted; simpl.
  - now exists T.
  - apply (IH (step a e) (match e with MouseDown now _ => now | _ => T end)).
    + apply ids_step; [assumption|].
      intros now event ->. simpl in Hsorted.
      inversion Hsorted as [|? ? _ Hall]; subst.
      now inversion Hall.
    + destruct e; simpl in *; try assumption.
      now inversion Hsorted.
Qed.

Lemma sorted_NoDup : forall l : list Z,
  StronglySorted Z.lt l -> NoDup l.
Proof.
  intros l H. induction H as [|i l Hl IH Hall].
  - constructor.
  - constructor; [|assumption].
    intros Hin. rewrite Forall_forall in Hall.
    specialize (Hall i Hin). lia.
Qed.

End Ids.

(** ** Canvases that can be copied *)

Section Copying.

Context `{R : Renderer}.

Lemma same_canvas_refl : forall s : State C, same_canvas s s.
Proof. intros s. repeat split. Qed.

Lemma same_canvas_trans : forall s1 s2 s3 : State C,
  same_canvas s1 s2 -> same_canvas s2 s3 -> same_canvas s1 s3.
Proof.
  intros s1 s2 s3 (A1 & A2 & A3) (B1 & B2 & B3).
  repeat split; congruence.
Qed.

Lemma same_canvas_fold :
  forall (A : Type) (f : State C -> A -> State C) l,
    (forall s a, same_canvas s (f s a)) ->
    forall s, same_canvas s (fold_left f l s).
Proof.
  intros A f l Hf. induction l as [|a l IH]; intros s; simpl.
  - apply same_canvas_refl.
  - apply (same_canvas_trans s (f s a)); [apply Hf|apply IH].
Qed.

Lemma same_canvas_startDrawingBox : forall (s : State C) now event,
  same_canvas s (startDrawingBox now event s).
Proof.
  intros s now event. unfold startDrawingBox.
  destruct (negb (drawingContext s) || negb (pdfContext s));
    repeat split.
Qed.

Lemma same_canvas_updateDrawingBox : forall (s : State C) event,
  same_canvas s (updateDrawingBox event s).
Proof.
  intros s event. unfold updateDrawingBox.
  destruct (negb (isDrawing s) || negb (drawingContext s)
            || negb (pdfContext s)); [repeat split|].
  destruct (currentBox s); repeat split.
Qed.

Lemma same_canvas_endDrawingBox : forall s : State C,
  same_canvas s (endDrawingBox s).
Proof.
  intros s. unfold endDrawingBox.
  destruct (isDrawing s); [|repeat split].
  destruct (currentBox s) as [box|]; [|repeat split].
  destruct (negb (pdfContext s) || negb (drawingContext s)
            || negb (annotationContext s)); [repeat split|].
  destruct (Num.nonzero (width box) && Num.nonzero (height box));
    repeat split.
Qed.

Lemma same_canvas_handleKeyboardBoxControl : forall (s : State C) event,
  same_canvas s (handleKeyboardBoxControl event s).
Proof.
  intros s event. unfold handleKeyboardBoxControl.
  destruct (negb (truthy_id (selectedAnnotationId s))
            || negb (pdfContext s) || negb (drawingContext s));
    [repeat split|].
  destruct (find _ (annotations s)); repeat split.
Qed.

Lemma same_canvas_addFieldsAndDownload : forall s : State C,
  same_canvas s (addFieldsAndDownload s).
Proof.
  intros s. unfold addFieldsAndDownload.
  destruct (pdfDocument s) as [pdf|] eqn:E; [|repeat split].
  destruct (snd (exportBytes pdf s [])); repeat split; simpl;
    now rewrite E.
Qed.

(** The handler of the mouseup and of the mouseout with the copy is
    [endDrawingBox] while the canvas can be copied. *)
Lemma step_throwing_drawable : forall (a : App R) e,
  drawable (stores a) = true -> step_throwing a e = step a e.
Proof.
  intros a e Hd.
  destruct e; try reflexivity; simpl.
  - unfold mouseup_throwing, mouseup.
    now rewrite (endDrawingBox_throwing_drawable _ _ Hd).
  - unfold mouseout_throwing, mouseout.
    now rewrite (endDrawingBox_throwing_drawable _ _ Hd).
Qed.

Lemma never_flat_with_stores : forall (a : App R) (s : State C),
  never_flat a -> same_canvas (stores a) s -> never_flat (with_stores a s).
Proof.
  intros a s (Hd & Hp) (Hw & Hh & Hdoc). unfold never_flat, drawable in *.
  simpl. rewrite Hw, Hh, Hdoc. split; assumption.
Qed.

Lemma never_flat_renderPage : forall (a : App R) n,
  never_flat a -> never_flat (renderPage n a).
Proof.
  intros a n H. pose proof H as (Hd & Hp). unfold renderPage.
  destruct (pdfDocument (stores a)) as [pdf|] eqn:E; [|assumption].
  destruct (proxy_getPage pdf n) as [pg|] eqn:G; [|assumption].
  destruct (Hp pdf eq_refl n pg G) as (Hw & Hh).
  assert (Hpages : forall pdf', Some pdf = Some pdf' -> well_sized pdf').
  { intros pdf' [= <-]. now apply Hp. }
  destruct (negb pdfCanvas_2d || negb drawingCanvas_2d
            || negb annotationCanvas_2d).
  - split; simpl; [|rewrite E; exact Hpages].
    unfold drawable; simpl. now rewrite Hw, Hh.
  - destruct (render pg); (split; simpl; [|rewrite E; exact Hpages]);
      unfold drawable; simpl; now rewrite Hw, Hh.
Qed.

Lemma never_flat_step : forall (a : App R) e,
  never_flat a ->
  (forall f pdf, In f (chosen [e]) ->
     getDocument (file_data f) = Some pdf -> well_sized pdf) ->
  never_flat (step a e).
Proof.
  intros a e H Hfiles.
  destruct e as [now event|event l t| | |event|i|i n|i| |v|file]; simpl.
  - unfold mousedown. destruct (drawing_listeners a); [|assumption].
    apply never_flat_with_stores; [assumption|].
    apply same_canvas_startDrawingBox.
  - unfold mousemove. destruct (drawing_listeners a); [|assumption].
    apply never_flat_with_stores; [assumption|].
    apply (same_canvas_trans _ (updateDrawingBox event (stores a)));
      [apply same_canvas_updateDrawingBox|].
    apply same_canvas_fold. intros s0 size. repeat split.
  - unfold mouseup. destruct (drawing_listeners a); [|assumption].
    apply never_flat_with_stores; [assumption|].
    apply same_canvas_endDrawingBox.
  - unfold mouseout. destruct (drawing_listeners a); [|assumption].
    apply never_flat_with_stores; [assumption|].
    apply (same_canvas_trans _ (endDrawingBox (stores a)));
      [apply same_canvas_endDrawingBox|].
    apply same_canvas_fold. intros s0 _. repeat split.
  - apply never_flat_with_stores; [assumption|].
    apply same_canvas_handleKeyboardBoxControl.
  - apply never_flat_with_stores; [assumption|]. repeat split.
  - apply never_flat_with_stores; [assumption|]. repeat split.
  - apply never_flat_with_stores; [assumption|]. repeat split.
  - apply never_flat_with_stores; [assumption|].
    apply same_canvas_addFieldsAndDownload.
  - unfold pageInput, onPageChange.
    assert (H' : never_flat
                   (with_stores a (set_currentPage (stores a) v)))
      by (apply never_flat_with_stores; [assumption|repeat split]).
    simpl. destruct (pdfDocument (stores a)); [|assumption].
    destruct ((1 <=? v)%Z && (v <=? numPages a)%Z); [|assumption].
    now apply never_flat_renderPage.
  - unfold onFileChange.
    assert (H' : never_flat
                   (with_stores a
                      (show_alert (stores a)
                         "Please upload a valid PDF file.")))
      by (apply never_flat_with_stores; [assumption|repeat split]).
    destruct file as [f|]; [|assumption].
    destruct (String.eqb (file_type f) "application/pdf");
      [|assumption].
    unfold loadPdf.
    destruct (getDocument (file_data f)) as [pdf|] eqn:G; [|assumption].
    apply never_flat_renderPage. destruct H as (Hd & _).
    split; [exact Hd|]. simpl. intros pdf' [= <-].
    apply (Hfiles f pdf); [now left|exact G].
Qed.

(** While every chosen file gives canvases that can be copied, no copy
    throws, and the component goes through the events as [run] has it. *)
Lemma run_throwing_never_flat : forall events (a : App R),
  never_flat a ->
  (forall f pdf, In f (chosen events) ->
     getDocument (file_data f) = Some pdf -> well_sized pdf) ->
  run_throwing events a = run events a.
Proof.
  induction events as [|e events IH]; intros a H Hfiles; simpl.
  - reflexivity.
  - destruct H as (Hd & Hp).
    rewrite (step_throwing_drawable a e Hd).
    apply IH.
    + apply never_flat_step; [split; assumption|].
      intros f pdf Hin. apply Hfiles.
      change (e :: events) with ([e] ++ events).
      unfold chosen in *. rewrite flat_map_app.
      apply in_or_app. now left.
    + intros f pdf Hin. apply Hfiles.
      change (e :: events) with ([e] ++ events).
      unfold chosen in *. rewrite flat_map_app.
      apply in_or_app. now right.
Qed.

Lemma never_flat_initial : never_flat (initial (R := R)).
Proof.
  split; [|discriminate].
  change (Num.nonzero (num 300) && Num.nonzero (num 150) = true).
  now rewrite !nonzero_of_Z.
Qed.

End Copying.

(** X15: when the clock shows a later time at each mousedown than at the
    one before, and every page of every file chosen gives canvases of a
    width and a height other than 0, so that no copy of the drawing canvas
    throws, then whatever events the mounted component has gone through,
    the ids of the stored annotations are in strictly ascending order, so
    no two stored annotations have the same id. *)
Theorem ids_distinct_under_advancing_clock :
  forall (C : Collaborators) (R : Renderer) (events : list Event),
    StronglySorted Z.lt (timestamps events) ->
    (forall f pdf, In f (chosen events) ->
       getDocument (file_data f) = Some pdf -> well_sized pdf) ->
    StronglySorted Z.lt
      (map id (annotations (stores (run_throwing events initial))))
    /\ NoDup (map id (annotations (stores (run_throwing events initial)))).
Proof.
  intros C R events Hsorted Hfiles.
  rewrite (run_throwing_never_flat events initial never_flat_initial
             Hfiles).
  assert (H : exists T, ids_ordered T (stores (run events initial))).
  { apply (ids_run events initial
             (match timestamps events with [] => 0 | t :: _ => t - 1 end)%Z).
    - split; [constructor|]. split; [constructor|]. discriminate.
    - destruct (timestamps events) as [|t ts]; [repeat constructor|].
      constructor; [assumption|].
      inversion Hsorted as [|? ? _ Hall]; subst.
      constructor; [lia|].
      eapply Forall_impl; [|exact Hall]. intros k Hk. simpl in Hk. lia. }
  destruct H as (T & H1 & _). split; [exact H1|].
  now apply sorted_NoDup.
Qed.

Lemma ids_distinct_under_advancing_clock_witness :
  map id
    (annotations
       (stores
          (run_throwing (R := SampleViewer.viewer)
             [FileChange (Some SampleViewer.three_pages);
              MouseDown 1000 (Sample.at_point 100 100);
              MouseMove (Sample.at_point 150 160) (num 0) (num 0);
              MouseUp;
              MouseDown 2000 (Sample.at_point 300 300);
              MouseMove (Sample.at_point 250 360) (num 0) (num 0);
              MouseOut]
             initial)))
  = [1000; 2000]
  /\ NoDup
       (map id
          (annotations
             (stores
                (run_throwing (R := SampleViewer.viewer)
                   [FileChange (Some SampleViewer.three_pages);
                    MouseDown 1000 (Sample.at_point 100 100);
                    MouseMove (Sample.at_point 150 160) (num 0) (num 0);
                    MouseUp;
                    MouseDown 2000 (Sample.at_point 300 300);
                    MouseMove (Sample.at_point 250 360) (num 0) (num 0);
                    MouseOut]
                   initial)))).
Proof.
  split; [vm_compute; reflexivity|].
  apply (ids_distinct_under_advancing_clock Sample.pdf SampleViewer.viewer).
  - vm_compute. repeat constructor.
  - intros f pdf Hin Hdoc n page Hp.
    destruct Hin as [<-|[]]. injection Hdoc as <-.
    change (SampleViewer.page_of
              [(num 600, num 800); (num 600, num 800); (num 600, num 800)]
              n = Some page) in Hp.
    unfold SampleViewer.page_of in Hp.
    destruct (n <? 1)%Z; [discriminate|].
    destruct (Z.to_nat (n - 1)) as [|[|[|k]]]; simpl in Hp;
      try (injection Hp as <-; split; vm_compute; reflexivity).
    destruct k; discriminate.
Defined.

(** ** Loading, rendering and the store *)

Section Navigation.

Context `{R : Renderer}.

Lemma renderPage_keeps : forall (a : App R) n,
  annotations (stores (renderPage n a)) = annotations (stores a)
  /\ selectedAnnotationId (stores (renderPage n a))
     = selectedAnnotationId (stores a)
  /\ isDrawing (stores (renderPage n a)) = isDrawing (stores a)
  /\ currentBox (stores (renderPage n a)) = currentBox (stores a)
  /\ downloads (stores (renderPage n a)) = downloads (stores a)
  /\ alerts (stores (renderPage n a)) = alerts (stores a)
  /\ currentPage (stores (renderPage n a)) = currentPage (stores a).
Proof.
  intros a n. unfold renderPage.
  destruct (pdfDocument (stores a)) as [pdf|]; [|repeat split].
  destruct (proxy_getPage pdf n) as [pg|]; [|repeat split].
  destruct (negb pdfCanvas_2d || negb drawingCanvas_2d
            || negb annotationCanvas_2d); [repeat split|].
  destruct (render pg); repeat split.
Qed.

End Navigation.

(** X16: neither the choice of a file nor an input of the page field
    touches the store, the selection, the drag in progress or the
    downloads: the annotations drawn so far stay through page changes and
    through the loading of another document.  The choice of a file leaves
    the page number as it is, and an input of the page field shows no
    alert. *)
Theorem loading_keeps_the_store :
  forall (C : Collaborators) (R : Renderer) (a : App R)
         (file : option (File R)) (v : Z),
    (annotations (stores (onFileChange file a)) = annotations (stores a)
     /\ selectedAnnotationId (stores (onFileChange file a))
        = selectedAnnotationId (stores a)
     /\ isDrawing (stores (onFileChange file a)) = isDrawing (stores a)
     /\ currentBox (stores (onFileChange file a)) = currentBox (stores a)
     /\ downloads (stores (onFileChange file a)) = downloads (stores a)
     /\ currentPage (stores (onFileChange file a))
        = currentPage (stores a))
    /\ (annotations (stores (pageInput v a)) = annotations (stores a)
        /\ selectedAnnotationId (stores (pageInput v a))
           = selectedAnnotationId (stores a)
        /\ isDrawing (stores (pageInput v a)) = isDrawing (stores a)
        /\ currentBox (stores (pageInput v a)) = currentBox (stores a)
        /\ downloads (stores (pageInput v a)) = downloads (stores a)
        /\ alerts (stores (pageInput v a)) = alerts (stores a)
        /\ currentPage (stores (pageInput v a)) = v).
Proof.
  intros C R a file v. split.
  - unfold onFileChange.
    destruct file as [f|]; [|repeat split].
    destruct (String.eqb (file_type f) "application/pdf"); [|repeat split].
    unfold loadPdf.
    destruct (getDocument (file_data f)) as [pdf|]; [|repeat split].
    destruct (renderPage_keeps
                (mkApp (set_document (stores a) (Some pdf))
                   (proxy_numPages pdf) (drawing_listeners a)
                   (readout_listeners a)) 1)
      as (K1 & K2 & K3 & K4 & K5 & _ & K7).
    repeat split; assumption.
  - unfold pageInput, onPageChange. simpl.
    destruct (pdfDocument (stores a)); [|repeat split].
    destruct ((1 <=? v)%Z && (v <=? numPages a)%Z); [|repeat split].
    destruct (renderPage_keeps
                (with_stores a (set_currentPage (stores a) v)) v)
      as (K1 & K2 & K3 & K4 & K5 & K6 & K7).
    repeat split; assumption.
Qed.

(** X17: when a file of type application/pdf loads, its first page is
    found, the canvases give their contexts and the render goes through,
    the document and its number of pages are stored, the three contexts
    are there, the canvas has the size of the first page at scale 1.5 as
    the canvas keeps it, and one read-out listener is added, for the size
    of the first page; it is the first page that is rendered whatever the
    page number in the store, which stays. *)
Theorem chosen_file_shows_first_page :
  forall (C : Collaborators) (R : Renderer) (a : App R) (f : File R)
         (pdf : PDFDocumentProxy) (page : PDFPageProxy),
    file_type f = "application/pdf" ->
    getDocument (file_data f) = Some pdf ->
    proxy_getPage pdf 1 = Some page ->
    pdfCanvas_2d = true -> annotationCanvas_2d = true ->
    drawingCanvas_2d = true ->
    render page = true ->
    pdfDocument (stores (onFileChange (Some f) a)) = Some pdf
    /\ numPages (onFileChange (Some f) a) = proxy_numPages pdf
    /\ rendered (stores (onFileChange (Some f) a))
    /\ canvas_width (stores (onFileChange (Some f) a))
       = canvas_dimension (fst (getViewport page scale))
    /\ canvas_height (stores (onFileChange (Some f) a))
       = canvas_dimension (snd (getViewport page scale))
    /\ drawing_listeners (onFileChange (Some f) a) = true
    /\ readout_listeners (onFileChange (Some f) a)
       = readout_listeners a ++ [getViewport page (num 1)]
    /\ currentPage (stores (onFileChange (Some f) a))
       = currentPage (stores a).
Proof.
  intros C R a f pdf page Htype Hdoc Hpage Hp Ha Hd Hrender.
  unfold onFileChange, loadPdf, renderPage. rewrite Htype. simpl.
  rewrite Hdoc. simpl. rewrite Hpage, Hp, Ha, Hd, Hrender. simpl.
  repeat split. now destruct (getViewport page (num 1)).
Qed.

Lemma chosen_file_shows_first_page_witness :
  rendered (stores SampleViewer.loaded)
  /\ canvas_width (stores SampleViewer.loaded)
     = SampleViewer.whole (num 600 * scale)%num
  /\ readout_listeners SampleViewer.loaded
     = [((num 600 * num 1)%num, (num 800 * num 1)%num)].
Proof.
  destruct (chosen_file_shows_first_page Sample.pdf SampleViewer.viewer
              initial SampleViewer.three_pages
              [(num 600, num 800); (num 600, num 800); (num 600, num 800)]
              (num 600, num 800)
              eq_refl eq_refl eq_refl eq_refl eq_refl eq_refl eq_refl)
    as (_ & _ & Hr & Hw & _ & _ & Hl & _).
  split; [exact Hr|]. split; [exact Hw|exact Hl].
Defined.

(** X18: with page numbers below 10^21, which read back from their text
    as they are: with a document loaded and rendered, a page number out of
    range typed in the page field is stored but nothing is rendered; a box
    drawn then is stored with that page number; and if the document loaded
    for the export lacks that page, and goes on lacking it while fields
    are created and placed, the next export fails as a whole, with one
    alert and no download. *)
Theorem box_on_page_out_of_range_blocks_export :
  forall (C : Collaborators) (R : Renderer) (a : App R) (v : Z) (now : Z)
         (down : MouseEvent) (moves : list MouseEvent)
         (pdf : PDFDocumentProxy) (lacking : PDFDoc -> Prop),
    rendered (stores a) ->
    pdfDocument (stores a) = Some pdf ->
    prints_in_decimal v ->
    (forall b, In b (annotations (stores a)) ->
       prints_in_decimal (page b)) ->
    (v < 1 \/ numPages a < v)%Z ->
    Num.nonzero (fst (drag_extent down moves)) = true ->
    Num.nonzero (snd (drag_extent down moves)) = true ->
    (forall pdfBytes pdfDoc,
        getData pdf = Some pdfBytes ->
        PDFDocument_load pdfBytes = Some pdfDoc -> lacking pdfDoc) ->
    (forall pdfDoc n created,
        lacking pdfDoc -> createTextField pdfDoc n = Some created ->
        lacking (fst created)) ->
    (forall pdfDoc field pdfPage options pdfDoc',
        lacking pdfDoc ->
        addToPage pdfDoc field pdfPage options = Some pdfDoc' ->
        lacking pdfDoc') ->
    (forall pdfDoc, lacking pdfDoc -> getPage pdfDoc (v - 1) = None) ->
    pageInput v a = with_stores a (set_currentPage (stores a) v)
    /\ annotations (drag now down moves (stores (pageInput v a)))
       = annotations (stores a)
         ++ [mkBox now (fst (pointer down)) (snd (pointer down)) v
               (fst (drag_extent down moves))
               (snd (drag_extent down moves)) ""]
    /\ downloads
         (addFieldsAndDownload
            (drag now down moves (stores (pageInput v a))))
       = downloads (stores a)
    /\ alerts
         (addFieldsAndDownload
            (drag now down moves (stores (pageInput v a))))
       = alerts (stores a)
         ++ ["Error creating PDF. Check console for details."].
Proof.
  intros C R a v now down moves pdf lacking Hr Hdoc _ _ Hrange Hw Hh
         Hloaded Hcreated Hplaced Hmissing.
  assert (Hnone : pageInput v a
                  = with_stores a (set_currentPage (stores a) v)).
  { unfold pageInput, onPageChange. simpl. rewrite Hdoc.
    replace ((1 <=? v)%Z && (v <=? numPages a)%Z) with false;
      [reflexivity|].
    symmetry. apply andb_false_iff.
    destruct Hrange as [Hlow|Hhigh];
      [left; apply Z.leb_gt|right; apply Z.leb_gt]; lia. }
  split; [exact Hnone|]. rewrite Hnone. simpl.
  assert (Hr' : rendered (set_currentPage (stores a) v)) by exact Hr.
  assert (Hann :
    annotations (drag now down moves (set_currentPage (stores a) v))
    = annotations (stores a)
      ++ [mkBox now (fst (pointer down)) (snd (pointer down)) v
            (fst (drag_extent down moves))
            (snd (drag_extent down moves)) ""]).
  { unfold drag. rewrite dragging_box by assumption.
    rewrite endDrawingBox_dragging by assumption.
    simpl. rewrite Hw, Hh. reflexivity. }
  split; [exact Hann|].
  destruct (drag_untouched now down moves (set_currentPage (stores a) v))
    as (Ud & _ & _ & _ & _ & _ & _ & _ & _ & Ua & _ & Udl).
  destruct (export_of_missing_page_fails lacking Hcreated Hplaced
              (drag now down moves (set_currentPage (stores a) v)) pdf
              (mkBox now (fst (pointer down)) (snd (pointer down)) v
                 (fst (drag_extent down moves))
                 (snd (drag_extent down moves)) ""))
    as (step & Hstep).
  - rewrite Hann. apply in_or_app. right. now left.
  - exact Hloaded.
  - exact Hmissing.
  - rewrite (export_failure _ pdf step); [|now rewrite Ud|exact Hstep].
    simpl. rewrite Ua, Udl. split; reflexivity.
Qed.

Lemma box_on_page_out_of_range_blocks_export_witness :
  alerts
    (addFieldsAndDownload
       (drag 1000 (Sample.at_point 100 100) [Sample.at_point 150 160]
          (stores (pageInput 7 SampleViewer.loaded))))
  = ["Error creating PDF. Check console for details."]
  /\ downloads
       (addFieldsAndDownload
          (drag 1000 (Sample.at_point 100 100) [Sample.at_point 150 160]
             (stores (pageInput 7 SampleViewer.loaded))))
     = [].
Proof.
  destruct (box_on_page_out_of_range_blocks_export Sample.pdf
              SampleViewer.viewer SampleViewer.loaded 7 1000
              (Sample.at_point 100 100) [Sample.at_point 150 160]
              [(num 600, num 800); (num 600, num 800); (num 600, num 800)]
              (fun d => List.length (Sample.pages d) <= 3)%nat)
    as (_ & _ & Hd & Ha).
  - repeat split; reflexivity.
  - reflexivity.
  - vm_compute. reflexivity.
  - intros b Hb. vm_compute in Hb. destruct Hb.
  - right. vm_compute. reflexivity.
  - vm_compute. reflexivity.
  - vm_compute. reflexivity.
  - intros pdfBytes pdfDoc G L. injection G as <-. injection L as <-.
    apply le_n.
  - intros pdfDoc n created Hl H.
    change (Sample.create_field pdfDoc n = Some created) in H.
    unfold Sample.create_field in H.
    destruct (existsb (String.eqb n) (Sample.names pdfDoc));
      [discriminate|]. injection H as <-. exact Hl.
  - intros pdfDoc field pdfPage options pdfDoc' Hl H.
    injection H as <-. exact Hl.
  - intros pdfDoc Hl.
    change (Sample.page_at pdfDoc 6 = None). unfold Sample.page_at.
    change (6 <? 0)%Z with false. cbv iota.
    replace (nth_error (Sample.pages pdfDoc) (Z.to_nat 6)) with
      (@None (number * number)); [reflexivity|].
    symmetry. apply nth_error_None.
    apply (Nat.le_trans _ 3 _ Hl). vm_compute. repeat constructor.
  - split; [exact Ha|exact Hd].
Defined.

(** ** The read-out listeners *)

Section Readout.

Context `{R : Renderer}.

Lemma readout_fold_keeps : forall sizes (s : State C) event,
  canvas_width
    (fold_left
       (fun st size => trackCoordinates (fst size) (snd size) event st)
       sizes s) = canvas_width s
  /\ canvas_height
       (fold_left
          (fun st size => trackCoordinates (fst size) (snd size) event st)
          sizes s) = canvas_height s
  /\ currentBox
       (fold_left
          (fun st size => trackCoordinates (fst size) (snd size) event st)
          sizes s) = currentBox s
  /\ isDrawing
       (fold_left
          (fun st size => trackCoordinates (fst size) (snd size) event st)
          sizes s) = isDrawing s
  /\ annotations
       (fold_left
          (fun st size => trackCoordinates (fst size) (snd size) event st)
          sizes s) = annotations s.
Proof.
  induction sizes as [|size sizes IH]; intros s event; simpl.
  - repeat split.
  - destruct (IH (trackCoordinates (fst size) (snd size) event s) event)
      as (K1 & K2 & K3 & K4 & K5).
    rewrite K1, K2, K3, K4, K5. repeat split.
Qed.

End Readout.

(** X19: however many renders have added a read-out listener, after a
    mousemove the read-out is the one of the listener added last, for the
    size of the page rendered last, over the canvas as it is now; the
    drawing handler has seen the move once, and the store is as before. *)
Theorem readout_follows_last_render :
  forall (C : Collaborators) (R : Renderer) (a : App R)
         (event : MouseEvent) (l t : number)
         (sizes : list (number * number)) (w h : number),
    drawing_listeners a = true ->
    readout_listeners a = sizes ++ [(w, h)] ->
    coordinates (stores (mousemove event l t a))
    = mkCoordinates
        (toFixed2 (toPdfX (clientX event - l) (canvas_width (stores a)) w))
        (toFixed2
           (toPdfY (clientY event - t) (canvas_height (stores a)) h))
    /\ currentBox (stores (mousemove event l t a))
       = currentBox (updateDrawingBox event (stores a))
    /\ isDrawing (stores (mousemove event l t a))
       = isDrawing (updateDrawingBox event (stores a))
    /\ annotations (stores (mousemove event l t a))
       = annotations (stores a).
Proof.
  intros C R a event l t sizes w h Hl Hsizes.
  unfold mousemove. rewrite Hl, Hsizes, fold_left_app. simpl.
  destruct (readout_fold_keeps sizes (updateDrawingBox event (stores a))
              (mkMouse (clientX event) (clientY event) l t))
    as (K1 & K2 & K3 & K4 & K5).
  destruct (updateDrawingBox_frame (stores a) event)
    as ((_ & _ & _ & _ & _ & _ & _ & U1 & U2 & _) & UA).
  rewrite K1, K2, K3, K4, K5, U1, U2, UA. repeat split.
Qed.

Lemma readout_follows_last_render_witness :
  coordinates
    (stores
       (mousemove (Sample.at_point 90 120) (num 0) (num 0)
          (pageInput 2 (pageInput 3 SampleViewer.loaded))))
  = mkCoordinates
      (toFixed2
         (toPdfX (num 90 - num 0)
            (canvas_width
               (stores (pageInput 2 (pageInput 3 SampleViewer.loaded))))
            (num 600 * num 1)))
      (toFixed2
         (toPdfY (num 120 - num 0)
            (canvas_height
               (stores (pageInput 2 (pageInput 3 SampleViewer.loaded))))
            (num 800 * num 1))).
Proof.
  apply (readout_follows_last_render Sample.pdf SampleViewer.viewer
           (pageInput 2 (pageInput 3 SampleViewer.loaded))
           (Sample.at_point 90 120) (num 0) (num 0)
           [((num 600 * num 1)%num, (num 800 * num 1)%num);
            ((num 600 * num 1)%num, (num 800 * num 1)%num)]
           (num 600 * num 1)%num (num 800 * num 1)%num).
  - reflexivity.
  - reflexivity.
Defined.

(** X20: when a page is found but one of the canvases gives no 2d context,
    the render logs one error and adds no listener, and from then on a
    mousedown, a mousemove, a mouseup or mouseout and a keydown all leave
    the state as it is. *)
Theorem render_without_context_disables_drawing :
  forall (C : Collaborators) (R : Renderer) (a : App R) (n : Z)
         (pdf : PDFDocumentProxy) (page : PDFPageProxy),
    pdfDocument (stores a) = Some pdf ->
    proxy_getPage pdf n = Some page ->
    pdfCanvas_2d && drawingCanvas_2d && annotationCanvas_2d = false ->
    console_errors (stores (renderPage n a))
    = console_errors (stores a) ++ ["Could not get canvas context"]
    /\ readout_listeners (renderPage n a) = readout_listeners a
    /\ drawing_listeners (renderPage n a) = drawing_listeners a
    /\ (forall now event,
          startDrawingBox now event (stores (renderPage n a))
          = stores (renderPage n a))
    /\ (forall event,
          updateDrawingBox event (stores (renderPage n a))
          = stores (renderPage n a))
    /\ endDrawingBox (stores (renderPage n a)) = stores (renderPage n a)
    /\ (forall event,
          handleKeyboardBoxControl event (stores (renderPage n a))
          = stores (renderPage n a)).
Proof.
  intros C R a n pdf page Hdoc Hpage Hctx.
  unfold renderPage. rewrite Hdoc, Hpage.
  replace (negb pdfCanvas_2d || negb drawingCanvas_2d
           || negb annotationCanvas_2d) with true.
  - simpl. repeat split.
    + intros event. unfold updateDrawingBox. simpl.
      now rewrite orb_true_r.
    + unfold endDrawingBox. simpl.
      destruct (isDrawing (stores a)); [|reflexivity].
      now destruct (currentBox (stores a)).
    + intros event. unfold handleKeyboardBoxControl. simpl.
      now rewrite orb_true_r.
  - symmetry. rewrite <- !negb_andb. now rewrite Hctx.
Qed.

Lemma render_without_context_disables_drawing_witness :
  console_errors (stores (renderPage 1 SampleViewer.unpainted))
  = ["Could not get canvas context"]
  /\ startDrawingBox 1000 (Sample.at_point 100 100)
       (stores (renderPage 1 SampleViewer.unpainted))
     = stores (renderPage 1 SampleViewer.unpainted).
Proof.
  destruct (render_without_context_disables_drawing Sample.pdf
              SampleViewer.blind SampleViewer.unpainted
              1 [(num 600, num 800)] (num 600, num 800)
              eq_refl eq_refl eq_refl)
    as (Hlog & _ & _ & Hstart & _).
  split; [exact Hlog|apply Hstart].
Defined.

(** ** The labels of the list *)

(** X21: the text of a list item is never empty: it is the name of the
    annotation when it has one and Box followed by the id when it has
    none, and two annotations without a name and of different ids have
    different texts. *)
Theorem labels_tell_annotations_apart :
  forall b1 b2 : AnnotationBox,
    label b1 <> ""
    /\ (name b1 <> "" -> label b1 = name b1)
    /\ (name b1 = "" -> name b2 = "" -> id b1 <> id b2 ->
        label b1 <> label b2).
Proof.
  intros b1 b2. unfold label.
  split; [|split].
  - destruct (String.eqb_spec (name b1) ""); [discriminate|assumption].
  - intros H. now destruct (String.eqb_spec (name b1) "").
  - intros H1 H2 Hid. rewrite H1, H2. simpl.
    intros H. injection H as H. now apply toString_inj in H.
Qed.

Lemma labels_tell_annotations_apart_witness :
  label Sample.named = name Sample.named
  /\ label Sample.box1 <> label Sample.unnamed.
Proof.
  destruct (labels_tell_annotations_apart Sample.named Sample.named)
    as (_ & Hname & _).
  destruct (labels_tell_annotations_apart Sample.box1 Sample.unnamed)
    as (_ & _ & Hapart).
  split.
  - apply Hname. discriminate.
  - apply Hapart; [reflexivity|reflexivity|discriminate].
Defined.

(** ** Page changes and the end of a drag *)

(** X22: with a document loaded, a page number within the number of pages
    typed in the page field is stored and that page is rendered: when the
    page is found, the canvases give their contexts and the render goes
    through, the canvas has the size of that page at scale 1.5 as the
    canvas keeps it, the three contexts are there, and one read-out
    listener is added, for the size of that page. *)
Theorem page_input_in_range_renders_page :
  forall (C : Collaborators) (R : Renderer) (a : App R) (v : Z)
         (pdf : PDFDocumentProxy) (page : PDFPageProxy),
    pdfDocument (stores a) = Some pdf ->
    (1 <= v <= numPages a)%Z ->
    proxy_getPage pdf v = Some page ->
    pdfCanvas_2d = true -> annotationCanvas_2d = true ->
    drawingCanvas_2d = true ->
    render page = true ->
    currentPage (stores (pageInput v a)) = v
    /\ rendered (stores (pageInput v a))
    /\ canvas_width (stores (pageInput v a))
       = canvas_dimension (fst (getViewport page scale))
    /\ canvas_height (stores (pageInput v a))
       = canvas_dimension (snd (getViewport page scale))
    /\ drawing_listeners (pageInput v a) = true
    /\ readout_listeners (pageInput v a)
       = readout_listeners a ++ [getViewport page (num 1)].
Proof.
  intros C R a v pdf page Hdoc Hrange Hpage Hp Ha Hd Hrender.
  unfold pageInput, onPageChange, renderPage. simpl. rewrite Hdoc.
  replace ((1 <=? v)%Z && (v <=? numPages a)%Z) with true.
  - rewrite Hpage, Hp, Ha, Hd, Hrender. simpl.
    repeat split. now destruct (getViewport page (num 1)).
  - symmetry. apply andb_true_intro.
    split; apply Z.leb_le; lia.
Qed.

Lemma page_input_in_range_renders_page_witness :
  currentPage (stores (pageInput 3 SampleViewer.loaded)) = 3
  /\ rendered (stores (pageInput 3 SampleViewer.loaded))
  /\ readout_listeners (pageInput 3 SampleViewer.loaded)
     = readout_listeners SampleViewer.loaded
       ++ [((num 600 * num 1)%num, (num 800 * num 1)%num)].
Proof.
  destruct (page_input_in_range_renders_page Sample.pdf
              SampleViewer.viewer SampleViewer.loaded 3
              [(num 600, num 800); (num 600, num 800); (num 600, num 800)]
              (num 600, num 800) eq_refl)
    as (Hv & Hr & _ & _ & _ & Hl);
    try reflexivity.
  - vm_compute. split; congruence.
  - split; [exact Hv|]. split; [exact Hr|exact Hl].
Defined.

Section Leaving.

Context `{R : Renderer}.

Lemma reset_fold : forall (A : Type) (l : list A) (s : State C),
  fold_left (fun st _ => resetCoordinates st) l s
  = match l with
    | [] => s
    | _ :: _ => resetCoordinates s
    end.
Proof.
  intros A l. induction l as [|x l IH]; intros s; simpl.
  - reflexivity.
  - rewrite IH. now destruct l.
Qed.

End Leaving.

(** X23: once a render has added the listeners, the pointer leaving the
    canvas ends a drag as a mouseup does, committing or discarding the box
    in progress in the same way, and moreover puts the read-out back to
    (0,0). *)
Theorem mouseout_ends_the_drag_like_mouseup :
  forall (C : Collaborators) (R : Renderer) (a : App R),
    drawing_listeners a = true ->
    readout_listeners a <> [] ->
    stores (mouseout a) = resetCoordinates (stores (mouseup a))
    /\ annotations (stores (mouseout a)) = annotations (stores (mouseup a))
    /\ isDrawing (stores (mouseout a)) = isDrawing (stores (mouseup a))
    /\ currentBox (stores (mouseout a)) = currentBox (stores (mouseup a))
    /\ coordinates (stores (mouseout a)) = mkCoordinates (num 0) (num 0).
Proof.
  intros C R a Hl Hlisten.
  assert (E : stores (mouseout a) = resetCoordinates (stores (mouseup a))).
  { unfold mouseout, mouseup. rewrite Hl. simpl. rewrite reset_fold.
    destruct (readout_listeners a) as [|size sizes] eqn:L; [|reflexivity].
    now contradiction Hlisten. }
  split; [exact E|]. rewrite E. repeat split.
Qed.

Lemma mouseout_ends_the_drag_like_mouseup_witness :
  annotations
    (stores
       (mouseout
          (run (R := SampleViewer.viewer)
             [MouseDown 1000 (Sample.at_point 100 100);
              MouseMove (Sample.at_point 150 160) (num 0) (num 0)]
             SampleViewer.loaded)))
  = annotations
      (stores
         (mouseup
            (run (R := SampleViewer.viewer)
               [MouseDown 1000 (Sample.at_point 100 100);
                MouseMove (Sample.at_point 150 160) (num 0) (num 0)]
               SampleViewer.loaded))).
Proof.
  apply (mouseout_ends_the_drag_like_mouseup Sample.pdf SampleViewer.viewer
           (run (R := SampleViewer.viewer)
              [MouseDown 1000 (Sample.at_point 100 100);
               MouseMove (Sample.at_point 150 160) (num 0) (num 0)]
              SampleViewer.loaded)).
  - reflexivity.
  - vm_compute. discriminate.
Defined.
